(** * CodeAct retrieval agent: execution kernel and tool-calling loop

    A shallow embedding of
      - [src/codeact_retrieval/utils/persistent_kernel.py] (class [PersistentKernel]),
      - [src/codeact_retrieval/agent.py] (class [Agent]),
      - [src/codeact_retrieval/tools/code_execution.py],
    together with the part of the Python runtime these files rely on
    (exceptions and their classes, [sys.stdout], [StringIO], threads joined
    with a timeout, [json.loads], [exec]). *)

From stdpp Require Import base strings list gmap pretty.
From Stdlib Require Import ZArith Lia.

Set Default Proof Using "Type".
Open Scope string_scope.

(** ** Python values, exceptions and the [raise]/[return] discipline *)

Module Py.

(** The exception classes that occur in the two source files, the classes
    they derive from, and classes defined by user code. *)
Inductive exc_class : Type :=
  | BaseException
  | KeyboardInterrupt
  | SystemExit
  | Exception
  | TypeError
  | ValueError
  | JSONDecodeError
  | AttributeError
  | RuntimeError
  | RecursionError
  | NotImplementedError
  | NameError
  | LookupError
  | KeyError
  | IndexError
  | ArithmeticError
  | ZeroDivisionError
  | OSError
  | TimeoutError
  | SyntaxError
  | UserDefined (name : string) (base : exc_class).

#[global] Instance exc_class_eq_dec : EqDecision exc_class.
Proof. solve_decision. Defined.

(** The proper ancestors of a built-in class, nearest first. *)
Definition builtin_bases (c : exc_class) : list exc_class :=
  match c with
  | BaseException => []
  | KeyboardInterrupt | SystemExit | Exception => [BaseException]
  | TypeError | ValueError | AttributeError | RuntimeError | NameError
  | LookupError | ArithmeticError | OSError | SyntaxError =>
      [Exception; BaseException]
  | JSONDecodeError => [ValueError; Exception; BaseException]
  | RecursionError | NotImplementedError => [RuntimeError; Exception; BaseException]
  | KeyError | IndexError => [LookupError; Exception; BaseException]
  | ZeroDivisionError => [ArithmeticError; Exception; BaseException]
  | TimeoutError => [OSError; Exception; BaseException]
  | UserDefined _ _ => []
  end.

(** Method resolution order of a class: the class, then its ancestors. *)
Fixpoint mro (c : exc_class) : list exc_class :=
  match c with
  | UserDefined _ b => c :: mro b
  | _ => c :: builtin_bases c
  end.

(** [issubclass c d]. *)
Definition issubclass (c d : exc_class) : bool := bool_decide (d ∈ mro c).

(** A raised exception: its class and what [str(e)] gives. Where the
    sources do not fix the text of a message (the [TypeError]s of the
    interpreter below), the text is abridged from CPython's; no property
    depends on it. *)
Record exn : Type := mk_exn { exn_class : exc_class; exn_str : string }.

#[global] Instance exn_eq_dec : EqDecision exn.
Proof. solve_decision. Defined.

(** [isinstance(e, d)]. *)
Definition isinstance (e : exn) (d : exc_class) : bool :=
  issubclass (exn_class e) d.

(** [except (d1, ..., dn)] matches [e]. *)
Definition matches (e : exn) (ds : list exc_class) : bool :=
  existsb (isinstance e) ds.

(** The outcome of evaluating a Python expression or call. *)
Inductive except (A : Type) : Type :=
  | Return (a : A)
  | Raise (e : exn).
Arguments Return {A} a.
Arguments Raise {A} e.

Definition bind {A B} (m : except A) (k : A → except B) : except B :=
  match m with
  | Return a => k a
  | Raise e => Raise e
  end.

(** [try: m  except ds as e: h e]. *)
Definition try_except {A} (m : except A) (ds : list exc_class)
    (h : exn → except A) : except A :=
  match m with
  | Return a => Return a
  | Raise e => if matches e ds then h e else Raise e
  end.

(** Python values, as far as the two source files look into them. *)
#[warnings="-register-all"]
Inductive value : Type :=
  | VNone
  | VBool (b : bool)
  | VInt (z : Z)
  | VFloat (repr : string)
  | VStr (s : string)
  | VList (items : list value)
  | VDict (items : list (string * value))
  | VKernel
  | VObject (repr : string).

(** [isinstance(v, str)]. *)
Definition is_str (v : value) : bool :=
  match v with VStr _ => true | _ => false end.

Definition is_dict (v : value) : bool :=
  match v with VDict _ => true | _ => false end.

(** The name [type(v).__name__] that CPython puts into its messages. *)
Definition type_name (v : value) : string :=
  match v with
  | VNone => "NoneType"
  | VBool _ => "bool"
  | VInt _ => "int"
  | VFloat _ => "float"
  | VStr _ => "str"
  | VList _ => "list"
  | VDict _ => "dict"
  | VKernel => "PersistentKernel"
  | VObject _ => "object"
  end.

(** String helpers: [s.startswith(p)] and [p in s]. *)
Fixpoint startswith (s p : string) {struct p} : bool :=
  match p, s with
  | EmptyString, _ => true
  | String a p', String b s' => bool_decide (a = b) && startswith s' p'
  | String _ _, EmptyString => false
  end.

Fixpoint contains (s p : string) : bool :=
  startswith s p ||
  match s with
  | EmptyString => false
  | String _ s' => contains s' p
  end.

(** Dictionaries keep insertion order; [d[k] = v] overwrites in place. *)
Fixpoint dict_get {A} (k : string) (d : list (string * A)) : option A :=
  match d with
  | [] => None
  | (k', v) :: d' => if decide (k = k') then Some v else dict_get k d'
  end.

Fixpoint dict_set {A} (k : string) (v : A) (d : list (string * A))
    : list (string * A) :=
  match d with
  | [] => [(k, v)]
  | (k', v') :: d' =>
      if decide (k = k') then (k, v) :: d' else (k', v') :: dict_set k v d'
  end.

(** [k in c] for a string [k]. *)
Definition py_in (k : string) (c : value) : except bool :=
  match c with
  | VDict d => Return (bool_decide (is_Some (dict_get k d)))
  | VList l => Return (existsb (λ v, match v with
                                     | VStr s => bool_decide (s = k)
                                     | _ => false
                                     end) l)
  | VStr s => Return (contains s k)
  | _ => Raise (mk_exn TypeError
                  ("argument of type '" ++ type_name c ++ "' is not iterable"))
  end.

(** [c[k]] for a string [k]. *)
Definition py_getitem (c : value) (k : string) : except value :=
  match c with
  | VDict d => match dict_get k d with
               | Some v => Return v
               | None => Raise (mk_exn KeyError ("'" ++ k ++ "'"))
               end
  | VList _ => Raise (mk_exn TypeError
                        "list indices must be integers or slices, not str")
  | VStr _ => Raise (mk_exn TypeError "string indices must be integers, not 'str'")
  | _ => Raise (mk_exn TypeError
                  ("'" ++ type_name c ++ "' object is not subscriptable"))
  end.

(** [c[k] = v] for a string [k]. *)
Definition py_setitem (c : value) (k : string) (v : value) : except value :=
  match c with
  | VDict d => Return (VDict (dict_set k v d))
  | VList _ => Raise (mk_exn TypeError
                        "list indices must be integers or slices, not str")
  | _ => Raise (mk_exn TypeError
                  ("'" ++ type_name c ++ "' object does not support item assignment"))
  end.

(** Truthiness of a string: [if s:]. *)
Definition truthy (s : string) : bool := negb (bool_decide (s = "")).

End Py.

(** ** The process-wide state of the interpreter: [sys.stdout] and streams *)

Module Sys.

(** A text stream is the console the process was started with, or a
    [StringIO] object, identified by its position in the heap. *)
Inductive stream : Type :=
  | Console
  | StringIO (id : nat).

#[global] Instance stream_eq_dec : EqDecision stream.
Proof. solve_decision. Defined.

Record process : Type := mk_process {
  sys_stdout : stream;      (* the binding [sys.stdout] *)
  console : string;         (* text written to the console *)
  stderr : string;          (* text written to [sys.stderr] *)
  heap : list string        (* contents of the [StringIO] objects *)
}.

Definition set_stdout (s : stream) (p : process) : process :=
  mk_process s (console p) (stderr p) (heap p).

(** [captured_output = StringIO()]. *)
Definition new_StringIO (p : process) : nat * process :=
  (length (heap p),
   mk_process (sys_stdout p) (console p) (stderr p) (heap p ++ [""])%list).

(** [buf.getvalue()]. *)
Definition getvalue (id : nat) (p : process) : string :=
  default "" (heap p !! id).

(** [s.write(text)]. *)
Definition write (s : stream) (text : string) (p : process) : process :=
  match s with
  | Console => mk_process (sys_stdout p) (console p ++ text) (stderr p) (heap p)
  | StringIO id =>
      mk_process (sys_stdout p) (console p) (stderr p)
                 (alter (λ old, old ++ text) id (heap p))
  end.

(** [print(text)]: a line written to whatever [sys.stdout] is bound to
    at that moment. *)
Definition newline : string := String (Ascii.ascii_of_nat 10) "".

Definition print (text : string) (p : process) : process :=
  write (sys_stdout p) (text ++ newline) p.

Definition write_stderr (text : string) (p : process) : process :=
  mk_process (sys_stdout p) (console p) (stderr p ++ text) (heap p).

End Sys.

(** ** The interpreter behind [ast.parse] and [exec]

    The kernel hands source text to the Python interpreter. The embedding
    takes the interpreter as a structure: a parser, a loader, and a step
    function that says what a running piece of code does during one tick of
    the clock (the unit in which [timeout] is counted; a second in the
    source). Running code reads and writes the namespace it was given and
    the process state. *)

Module Interp.
Import Py Sys.

Record memory : Type := mk_memory {
  globals : gmap string value;   (* the dict passed to [exec] *)
  proc : process
}.

Inductive step_result (C : Type) : Type :=
  | Next (c : C) (m : memory)      (* still running *)
  | Halt (m : memory)              (* ran to its end *)
  | Fault (e : exn) (m : memory).  (* ended by raising [e] *)
Arguments Next {C} c m.
Arguments Halt {C} m.
Arguments Fault {C} e m.

Record interpreter : Type := mk_interpreter {
  code_obj : Type;
  (* [ast.parse(src)]: [Some d] when it raises [SyntaxError], [str(e) = d] *)
  ast_parse : string → option string;
  compile : string → code_obj;
  step : code_obj → memory → step_result code_obj
}.

Inductive status : Type :=
  | Running
  | Finished
  | Failed (e : exn).

#[global] Instance status_eq_dec : EqDecision status.
Proof. solve_decision. Defined.

(** What an observer sees of a unit of execution at some moment. *)
Record snapshot : Type := mk_snapshot {
  snap_mem : memory;
  snap_status : status
}.

(** [exec(code, globals)] observed after [n] ticks. *)
Fixpoint run (I : interpreter) (n : nat) (c : code_obj I) (m : memory) : snapshot :=
  match n with
  | 0 => mk_snapshot m Running
  | S n' =>
      match step I c m with
      | Next c' m' => run I n' c' m'
      | Halt m' => mk_snapshot m' Finished
      | Fault e m' => mk_snapshot m' (Failed e)
      end
  end.

(** A callable observed over time. *)
Definition activity : Type := nat → memory → snapshot.

(** [threading.Thread(target=f).start()], observed [ticks] later. An
    exception that ends the target is handed to [threading.excepthook],
    which writes a traceback to [sys.stderr]; it is not raised in the
    thread that started or joins the unit. *)
Definition traceback (e : exn) : string :=
  "Exception in thread: " ++ exn_str e ++ newline.

Definition thread_run (f : activity) (ticks : nat) (m : memory) : snapshot :=
  let s := f ticks m in
  match snap_status s with
  | Failed e =>
      mk_snapshot (mk_memory (globals (snap_mem s))
                             (write_stderr (traceback e) (proc (snap_mem s))))
                  (Failed e)
  | _ => s
  end.

(** [t.is_alive()]. *)
Definition is_alive (s : snapshot) : bool :=
  bool_decide (snap_status s = Running).

(** [t.join(timeout=z)] waits [max(z, 0)]. *)
Definition join_ticks (z : Z) : nat := Z.to_nat z.

(** A call made in the caller's own thread blocks until the callee ends:
    [None] when it has not ended after [fuel] ticks. *)
Definition call (f : activity) (fuel : nat) (m : memory)
    : option (except () * memory) :=
  let s := f fuel m in
  match snap_status s with
  | Running => None
  | Finished => Some (Return (), snap_mem s)
  | Failed e => Some (Raise e, snap_mem s)
  end.

End Interp.

(** ** [persistent_kernel.py]: class [PersistentKernel] *)

Module Kernel.
Import Py Sys Interp.

(** An entry of [self.background_threads]: the code the unit was started
    with and whether it was alive when last looked at. *)
Record thread : Type := mk_thread {
  target : string;
  alive : bool
}.

Record PersistentKernel : Type := mk_kernel {
  namespace : gmap string value;
  imports : string;
  timeout : Z;
  background_threads : list thread
}.

(** A kernel object together with the process it lives in. *)
Record state : Type := mk_state {
  self : PersistentKernel;
  process : Sys.process
}.

(** The dict every operation returns. *)
Record result : Type := mk_result {
  success : bool;
  output : string;
  error : option string
}.

#[global] Instance result_eq_dec : EqDecision result.
Proof. solve_decision. Defined.

Definition memory_of (st : state) : memory :=
  mk_memory (namespace (self st)) (process st).

(** The state after running code left the memory as [m]; the namespace
    dict is mutated in place by [exec]. A unit is observed up to the
    moment the call that started it returns: what a unit that is still
    alive then does to the namespace later is not part of the model. *)
Definition store (st : state) (m : memory) : state :=
  mk_state (mk_kernel (globals m) (imports (self st)) (timeout (self st))
                      (background_threads (self st)))
           (proc m).

Section WithInterpreter.
Variable I : interpreter.

(** Lines 94-101. *)
Definition _safe_exec (code : string) : activity := λ n m,
  match ast_parse I code with
  | Some d =>
      mk_snapshot m (Failed (mk_exn SyntaxError ("Invalid Python syntax: " ++ d)))
  | None => run I n (compile I code) m
  end.

(** Lines 16-30. [None]: the bootstrap code has not ended within [fuel]. *)
Definition __init__ (namespace : option (gmap string value)) (imports : string)
    (timeout : Z) (fuel : nat) (p : Sys.process) : option (except () * state) :=
  let ns := match namespace with
            | Some d => d          (* [namespace or {}] *)
            | None => ∅
            end in
  let st := mk_state (mk_kernel ns imports timeout []) p in
  if truthy imports then
    match call (_safe_exec imports) fuel (memory_of st) with
    | Some (r, m) => Some (r, store st m)
    | None => None
    end
  else Some (Return (), st).

(** Lines 32-36. *)
Definition reset (fuel : nat) (st : state) : option (except () * state) :=
  let st1 := mk_state (mk_kernel ∅ (imports (self st)) (timeout (self st))
                                 (background_threads (self st)))
                      (process st) in
  if truthy (imports (self st)) then
    match call (_safe_exec (imports (self st))) fuel (memory_of st1) with
    | Some (r, m) => Some (r, store st1 m)
    | None => None
    end
  else Some (Return (), st1).

(** Lines 40-44: the target of the background unit. *)
Definition run_code (code : string) : activity := λ n m,
  let s := _safe_exec code n m in
  match snap_status s with
  | Failed e =>
      if matches e [Exception] then
        mk_snapshot
          (mk_memory (globals (snap_mem s))
                     (print ("Background execution error: " ++ exn_str e)
                            (proc (snap_mem s))))
          Finished
      else s
  | _ => s
  end.

(** [time.sleep(2)]. *)
Definition grace_period : nat := 2.

(** Lines 38-58. *)
Definition execute_background (code : string) (st : state)
    : except result * state :=
  let s := thread_run (run_code code) grace_period (memory_of st) in
  let st1 := store st (snap_mem s) in
  let threads := (background_threads (self st1) ++ [mk_thread code (is_alive s)])%list in
  let threads := filter (λ t, alive t = true) threads in
  (Return (mk_result true "Code started in background thread" None),
   mk_state (mk_kernel (namespace (self st1)) (imports (self st1))
                       (timeout (self st1)) threads)
            (process st1)).

(** Lines 69-71: [sys.stdout] is bound to a fresh [StringIO]. *)
Definition redirect (st : state) : nat * state :=
  let '(captured_output, p) := new_StringIO (process st) in
  (captured_output,
   mk_state (self st) (set_stdout (StringIO captured_output) p)).

(** Lines 74-76: the unit that runs [_safe_exec(code)], as it is when
    [join] returns. *)
Definition exec_thread (code : string) (st : state) : snapshot :=
  thread_run (_safe_exec code) (join_ticks (timeout (self st))) (memory_of st).

(** Lines 74-82: the body of the [try]. *)
Definition execute_try (code : string) (captured_output : nat) (st : state)
    : except result * state :=
  let s := exec_thread code st in
  let st1 := store st (snap_mem s) in
  if is_alive s then
    (Raise (mk_exn TimeoutError
              ("Execution timed out after " ++ pretty (timeout (self st))
                 ++ " seconds")),
     st1)
  else
    (Return (mk_result true (getvalue captured_output (process st1)) None), st1).

(** Lines 60-92. *)
Definition execute (code : value) (st : state) : except result * state :=
  match code with
  | VStr src =>
      let old_stdout := sys_stdout (process st) in
      let '(captured_output, st1) := redirect st in
      let '(r, st2) := execute_try src captured_output st1 in
      let r' :=
        try_except r [Exception]
          (λ e, Return (mk_result false
                          (getvalue captured_output (process st2))
                          (Some (exn_str e)))) in
      (* finally *)
      (r', mk_state (self st2) (set_stdout old_stdout (process st2)))
  | _ => (Return (mk_result false "" (Some "Code must be a string")), st)
  end.

End WithInterpreter.

End Kernel.

(** ** A reference interpreter for a fragment of Python

    Enough of the language to run the scenarios of the specification:
    programs are lines of the forms [NAME = DIGITS], [print(NAME)] and
    [while True: pass]. The parser rejects every other line. One statement
    runs per tick. The theorems about the kernel hold for every
    interpreter; this one supplies concrete runs. *)

Module MiniPy.
Import Py Sys Interp.

Inductive stmt : Type :=
  | Assign (x : string) (z : Z)
  | Print (x : string)
  | Forever.

Fixpoint split_on (sep : Ascii.ascii) (s : string) : list string :=
  match s with
  | EmptyString => [""]
  | String a s' =>
      if decide (a = sep) then "" :: split_on sep s'
      else match split_on sep s' with
           | l :: ls => String a l :: ls
           | [] => [String a ""]
           end
  end.

Fixpoint strip_prefix (p s : string) : option string :=
  match p, s with
  | EmptyString, _ => Some s
  | String a p', String b s' => if decide (a = b) then strip_prefix p' s' else None
  | String _ _, EmptyString => None
  end.

Fixpoint split_at (sep s : string) : option (string * string) :=
  match strip_prefix sep s with
  | Some r => Some ("", r)
  | None =>
      match s with
      | EmptyString => None
      | String a s' =>
          match split_at sep s' with
          | Some (l, r) => Some (String a l, r)
          | None => None
          end
      end
  end.

Definition code_of (a : Ascii.ascii) : N := Ascii.N_of_ascii a.

Definition is_digit (a : Ascii.ascii) : bool :=
  (48 <=? code_of a)%N && (code_of a <=? 57)%N.

Definition is_ident_start (a : Ascii.ascii) : bool :=
  ((65 <=? code_of a)%N && (code_of a <=? 90)%N)
  || ((97 <=? code_of a)%N && (code_of a <=? 122)%N)
  || (code_of a =? 95)%N.

Definition is_ident (s : string) : bool :=
  match s with
  | EmptyString => false
  | String a s' =>
      is_ident_start a
      && forallb (λ b, is_ident_start b || is_digit b)
                 (String.list_ascii_of_string s')
  end.

Definition is_number (s : string) : bool :=
  negb (bool_decide (s = ""))
  && forallb is_digit (String.list_ascii_of_string s).

Definition number_value (s : string) : Z :=
  fold_left (λ acc a, 10 * acc + (Z.of_N (code_of a) - 48))%Z
            (String.list_ascii_of_string s) 0%Z.

Definition parse_line (l : string) : option stmt :=
  if decide (l = "while True: pass") then Some Forever
  else match strip_prefix "print(" l with
       | Some rest =>
           match split_at ")" rest with
           | Some (x, "") => if is_ident x then Some (Print x) else None
           | _ => None
           end
       | None =>
           match split_at " = " l with
           | Some (x, d) =>
               if is_ident x && is_number d
               then Some (Assign x (number_value d)) else None
           | None => None
           end
       end.

Definition parse (src : string) : option (list stmt) :=
  mapM parse_line (filter (λ l, l ≠ "") (split_on (Ascii.ascii_of_nat 10) src)).

(** [str(v)], as [print] shows a value. *)
Definition str (v : value) : string :=
  match v with
  | VNone => "None"
  | VBool true => "True"
  | VBool false => "False"
  | VInt z => pretty z
  | VStr s => s
  | VFloat r | VObject r => r
  | VList _ => "[...]"
  | VDict _ => "{...}"
  | VKernel => "<PersistentKernel object>"
  end.

Definition step (c : list stmt) (m : memory) : step_result (list stmt) :=
  let continue k m' := match k with [] => Halt m' | _ => Next k m' end in
  match c with
  | [] => Halt m
  | Assign x z :: k => continue k (mk_memory (<[x := VInt z]> (globals m)) (proc m))
  | Print x :: k =>
      match globals m !! x with
      | Some v => continue k (mk_memory (globals m) (print (str v) (proc m)))
      | None => Fault (mk_exn NameError ("name '" ++ x ++ "' is not defined")) m
      end
  | Forever :: k => Next c m
  end.

Definition interp : interpreter :=
  mk_interpreter (list stmt)
    (λ src, match parse src with
            | Some _ => None
            | None => Some "invalid syntax"
            end)
    (λ src, default [] (parse src))
    step.

(** A kernel as [main.py] builds it (no bootstrap code), here with an
    empty namespace, in a process that prints to the console. *)
Definition fresh_process : process := mk_process Console "" "" [].

Definition fresh_kernel (timeout : Z) : Kernel.state :=
  Kernel.mk_state (Kernel.mk_kernel ∅ "" timeout []) fresh_process.

End MiniPy.

(** ** [agent.py]: class [Agent] *)

Module Agent.
Import Py.

(** A tool request: [tool_call.id], [tool_call.function.name] and
    [tool_call.function.arguments]. *)
Record ToolCall : Type := mk_tool_call {
  tc_id : string;
  tc_name : string;
  tc_arguments : string
}.

(** A message of the conversation (a dict in the source). *)
Record Message : Type := mk_message {
  role : string;
  content : option string;
  tool_calls : list ToolCall;
  tool_call_id : option string;
  name : option string
}.

(** [response.choices[0].message] of a completion. *)
Record Response : Type := mk_response {
  resp_content : option string;
  resp_tool_calls : list ToolCall
}.

(** What [query] returns. *)
Record QueryResult : Type := mk_query_result {
  qr_content : string;
  qr_tool_calls : option (list ToolCall)
}.

(** What [_execute_tool_call] returns. *)
Record ToolCallResponse : Type := mk_tool_call_response {
  tr_tool_call_id : string;
  tr_tool_name : string;
  tr_tool_args : value;
  tr_tool_response : value
}.

(** The projection of a tool sent to the completion service. *)
Record CleanTool : Type := mk_clean_tool {
  ct_name : option string;
  ct_description : string;
  ct_parameters : string
}.

Definition system_message (prompt : string) : Message :=
  mk_message "system" (Some prompt) [] None None.

Definition user_message (prompt : string) : Message :=
  mk_message "user" (Some prompt) [] None None.

(** [message.model_dump()] of the message of a completion; the
    completion service answers with assistant messages. *)
Definition assistant_message (r : Response) : Message :=
  mk_message "assistant" (resp_content r) (resp_tool_calls r) None None.

Definition tool_message (r : ToolCallResponse) (text : string) : Message :=
  mk_message "tool" (Some text) [] (Some (tr_tool_call_id r)) (Some (tr_tool_name r)).

(** [str(v)]: a string is itself, any other value is shown by [repr]. *)
Definition str_with (repr : value → string) (v : value) : string :=
  match v with
  | VStr s => s
  | _ => repr v
  end.

Section WithEnvironment.
(** What the tools act on (the kernel among it). *)
Context {W : Type}.

(** A tool callable; it is called with keyword arguments only. *)
Definition callable : Type := list (string * value) → W → except value * W.

(** An entry of [tools]: [tool["type"]] and the fields of
    [tool["function"]]. *)
Record ToolSpec : Type := mk_tool_spec {
  tool_type : string;
  fn_name : option string;
  fn_description : string;
  fn_parameters : string;
  fn_callable : option callable
}.

Record Agent : Type := mk_agent {
  system_prompt : string;
  tools : list ToolSpec;
  messages : list Message;
  _tool_functions : gmap string callable;
  env : W
}.

(** [json.loads]. *)
Variable json_loads : string → except value.
(** [repr] of the values tools return. *)
Variable repr : value → string.
(** The completion service: the tools and the history go in, an
    assistant message (or an exception) comes out. *)
Variable completion : option (list CleanTool) → list Message → except Response.

(** Lines 44-52: the mapping built by [__init__]. *)
Definition register (reg : gmap string callable) (tool : ToolSpec)
    : gmap string callable :=
  if decide (tool_type tool = "function") then
    match fn_name tool, fn_callable tool with
    | Some name, Some f => if truthy name then <[name := f]> reg else reg
    | _, _ => reg
    end
  else reg.

Definition __init__ (system_prompt : string) (tools : list ToolSpec)
    (messages : option (list Message)) (kernel : W) : Agent :=
  mk_agent system_prompt tools (default [] messages)
           (fold_left register tools ∅) kernel.

Definition set_messages (ms : list Message) (self : Agent) : Agent :=
  mk_agent (system_prompt self) (tools self) ms (_tool_functions self) (env self).

Definition set_env (w : W) (self : Agent) : Agent :=
  mk_agent (system_prompt self) (tools self) (messages self)
           (_tool_functions self) w.

(** [self.messages.append(m)]. *)
Definition append (m : Message) (self : Agent) : Agent :=
  set_messages (messages self ++ [m])%list self.

(** Lines 192-199. *)
Definition _set_system_prompt (system_prompt : string) (self : Agent) : Agent :=
  match messages self with
  | [] => append (system_message system_prompt) self
  | m :: _ =>
      if decide (role m ≠ "system")
      then set_messages (system_message system_prompt :: messages self) self
      else self
  end.

(** Lines 124-149. *)
Definition clean_tools (self : Agent) : list CleanTool :=
  omap (λ tool,
          if decide (tool_type tool = "function")
          then Some (mk_clean_tool (fn_name tool) (fn_description tool)
                                   (fn_parameters tool))
          else None)
       (tools self).

Definition _make_api_call (self : Agent) : except Response :=
  completion (match clean_tools self with
              | [] => None
              | cts => Some cts
              end)
             (messages self).

(** Line 180: the call that unpacks [tool_args] into keyword arguments. *)
Definition call_with_kwargs (f : callable) (tool_args : value) (w : W)
    : except value * W :=
  match tool_args with
  | VDict kwargs => f kwargs w
  | _ => (Raise (mk_exn TypeError
                   ("argument after ** must be a mapping, not "
                      ++ type_name tool_args)),
          w)
  end.

(** Lines 152-189. *)
Definition _execute_tool_call (self : Agent) (tool_call : ToolCall)
    : except ToolCallResponse * Agent :=
  let tool_call_id := tc_id tool_call in
  let tool_name := tc_name tool_call in
  let parsed :=
    bind (json_loads (tc_arguments tool_call))
         (λ tool_args,
            if decide (tool_name = "code_execution")
            then py_setitem tool_args "kernel" VKernel
            else Return tool_args) in
  match parsed with
  | Raise e =>
      if matches e [JSONDecodeError] then
        (Return (mk_tool_call_response tool_call_id tool_name (VDict [])
                   (VStr ("Error parsing tool arguments: " ++ exn_str e))),
         self)
      else (Raise e, self)
  | Return tool_args =>
      match _tool_functions self !! tool_name with
      | None =>
          (Return (mk_tool_call_response tool_call_id tool_name tool_args
                     (VStr ("Error: Tool '" ++ tool_name ++ "' not found"))),
           self)
      | Some tool_function =>
          let '(r, w) := call_with_kwargs tool_function tool_args (env self) in
          let r' :=
            try_except r [TypeError; ValueError; AttributeError; RuntimeError]
              (λ e, Return (VStr ("Error executing tool '" ++ tool_name
                                    ++ "': " ++ exn_str e))) in
          (bind r' (λ tool_response,
                      Return (mk_tool_call_response tool_call_id tool_name
                                tool_args tool_response)),
           set_env w self)
      end
  end.

(** Lines 88-96: the arguments are parsed once more to be displayed.
    What is printed is left out; what can be raised is kept. *)
Definition show_arguments (tool_call : ToolCall) : except () :=
  try_except
    (bind (json_loads (tc_arguments tool_call))
          (λ args,
             if decide (tc_name tool_call = "code_execution")
             then bind (py_in "code" args)
                       (λ b : bool,
                          if b then bind (py_getitem args "code") (λ _, Return ())
                          else Return ())
             else Return ()))
    [JSONDecodeError]
    (λ _, Return ()).

(** Lines 82-121. *)
Fixpoint _process_tool_calls (tool_calls : list ToolCall) (self : Agent)
    : except () * Agent :=
  match tool_calls with
  | [] => (Return (), self)
  | tool_call :: rest =>
      match show_arguments tool_call with
      | Raise e => (Raise e, self)
      | Return _ =>
          match _execute_tool_call self tool_call with
          | (Raise e, self1) => (Raise e, self1)
          | (Return tool_call_response, self1) =>
              _process_tool_calls rest
                (append (tool_message tool_call_response
                           (str_with repr (tr_tool_response tool_call_response)))
                        self1)
          end
      end
  end.

(** Lines 65-79: the loop of [query]. [None]: the loop has not ended
    within [fuel] completions. *)
Fixpoint conversation_loop (fuel : nat) (self : Agent)
    : option (except QueryResult) * Agent :=
  match fuel with
  | 0 => (None, self)
  | S fuel' =>
      match _make_api_call self with
      | Raise e => (Some (Raise e), self)
      | Return response =>
          let self1 := append (assistant_message response) self in
          match resp_tool_calls response with
          | [] =>
              (Some (Return (mk_query_result (default "" (resp_content response))
                                             None)),
               self1)
          | calls =>
              match _process_tool_calls calls self1 with
              | (Raise e, self2) => (Some (Raise e), self2)
              | (Return _, self2) => conversation_loop fuel' self2
              end
          end
      end
  end.

(** Lines 56-79. *)
Definition query (user_prompt : string) (fuel : nat) (self : Agent)
    : option (except QueryResult) * Agent :=
  let self1 := _set_system_prompt (system_prompt self) self in
  let self2 := append (user_message user_prompt) self1 in
  conversation_loop fuel self2.

(** [query] called once per prompt, one after the other, whatever the
    outcome of each call. *)
Fixpoint queries (prompts : list (string * nat)) (self : Agent) : Agent :=
  match prompts with
  | [] => self
  | (prompt, fuel) :: rest => queries rest (snd (query prompt fuel self))
  end.

End WithEnvironment.

Arguments callable W : clear implicits.
Arguments ToolSpec W : clear implicits.
Arguments Agent W : clear implicits.

End Agent.

(** ** [tools/code_execution.py] and [tools/tools_schema.py] *)

Module Tools.
Import Py Interp.

Section WithInterpreter.
Variable I : interpreter.

(** [code_execution(code, kernel)], called with keyword arguments: both
    parameters are required and no other keyword is accepted. *)
Definition code_execution : Agent.callable Kernel.state := λ kwargs st,
  match dict_get "code" kwargs, dict_get "kernel" kwargs with
  | Some code, Some kernel =>
      if decide (length kwargs = 2) then
        match kernel with
        | VKernel =>
            match Kernel.execute I code st with
            | (Return result, st') =>
                (Return (VStr (if Kernel.success result
                               then Kernel.output result
                               else "Error: " ++ default "None" (Kernel.error result))),
                 st')
            | (Raise e, st') => (Raise e, st')
            end
        | _ => (Raise (mk_exn AttributeError
                         ("'" ++ type_name kernel
                            ++ "' object has no attribute 'execute'")),
                st)
        end
      else (Raise (mk_exn TypeError
                     "code_execution() got an unexpected keyword argument"),
            st)
  | _, _ => (Raise (mk_exn TypeError
                      "code_execution() missing required positional argument"),
             st)
  end.

Definition TOOLS_SCHEMA : list (Agent.ToolSpec Kernel.state) :=
  [ Agent.mk_tool_spec "function" (Some "code_execution")
      "Execute Python code in a persistent kernel."
      "{code: string}"
      (Some code_execution) ].

End WithInterpreter.

End Tools.

(** ** A reference reader for a fragment of JSON

    [null], [true], [false], integers, strings without escapes, arrays and
    objects; any other text is rejected. It stands for [json.loads] where
    a concrete run is wanted; the theorems about the agent hold for every
    reader. *)

Module MiniJson.
Import Py.

Definition quote : string := String (Ascii.ascii_of_nat 34) "".

Definition is_space (a : Ascii.ascii) : bool :=
  bool_decide (MiniPy.code_of a ∈ [32; 9; 10; 13]%N).

Fixpoint skip_ws (s : string) : string :=
  match s with
  | String a s' => if is_space a then skip_ws s' else s
  | EmptyString => s
  end.

(** The text up to the closing quote, and what follows it. *)
Fixpoint take_string (s : string) : option (string * string) :=
  match s with
  | EmptyString => None
  | String a s' =>
      if decide (MiniPy.code_of a = 34%N) then Some ("", s')
      else if decide (MiniPy.code_of a = 92%N) then None
      else match take_string s' with
           | Some (t, r) => Some (String a t, r)
           | None => None
           end
  end.

Fixpoint take_digits (s : string) : string * string :=
  match s with
  | String a s' =>
      if MiniPy.is_digit a
      then let '(d, r) := take_digits s' in (String a d, r)
      else ("", s)
  | EmptyString => ("", s)
  end.

Definition take_integer (s : string) : option (value * string) :=
  let '(sign, s1) := match MiniPy.strip_prefix "-" s with
                     | Some r => ((-1)%Z, r)
                     | None => (1%Z, s)
                     end in
  let '(d, r) := take_digits s1 in
  if bool_decide (d = "") then None
  else match r with
       | String a _ =>
           if bool_decide (MiniPy.code_of a ∈ [46; 101; 69]%N) then None
           else Some (VInt (sign * MiniPy.number_value d), r)
       | EmptyString => Some (VInt (sign * MiniPy.number_value d), r)
       end.

Fixpoint parse_value (fuel : nat) (s : string) : option (value * string) :=
  match fuel with
  | 0 => None
  | S fuel' =>
      let s := skip_ws s in
      match MiniPy.strip_prefix "null" s with Some r => Some (VNone, r) | None =>
      match MiniPy.strip_prefix "true" s with Some r => Some (VBool true, r) | None =>
      match MiniPy.strip_prefix "false" s with Some r => Some (VBool false, r) | None =>
      match MiniPy.strip_prefix quote s with
      | Some r => match take_string r with
                  | Some (t, r') => Some (VStr t, r')
                  | None => None
                  end
      | None =>
      match MiniPy.strip_prefix "[" s with
      | Some r =>
          match MiniPy.strip_prefix "]" (skip_ws r) with
          | Some r' => Some (VList [], r')
          | None => match parse_elements fuel' r with
                    | Some (vs, r') => Some (VList vs, r')
                    | None => None
                    end
          end
      | None =>
      match MiniPy.strip_prefix "{" s with
      | Some r =>
          match MiniPy.strip_prefix "}" (skip_ws r) with
          | Some r' => Some (VDict [], r')
          | None => match parse_members fuel' r with
                    | Some (kvs, r') =>
                        Some (VDict (fold_left (λ d kv, dict_set kv.1 kv.2 d) kvs []), r')
                    | None => None
                    end
          end
      | None => take_integer s
      end end end end end end
  end
with parse_elements (fuel : nat) (s : string) : option (list value * string) :=
  match fuel with
  | 0 => None
  | S fuel' =>
      match parse_value fuel' s with
      | Some (v, r) =>
          let r := skip_ws r in
          match MiniPy.strip_prefix "," r with
          | Some r' => match parse_elements fuel' r' with
                       | Some (vs, r'') => Some (v :: vs, r'')
                       | None => None
                       end
          | None => match MiniPy.strip_prefix "]" r with
                    | Some r' => Some ([v], r')
                    | None => None
                    end
          end
      | None => None
      end
  end
with parse_members (fuel : nat) (s : string)
    : option (list (string * value) * string) :=
  match fuel with
  | 0 => None
  | S fuel' =>
      match MiniPy.strip_prefix quote (skip_ws s) with
      | Some r =>
          match take_string r with
          | Some (k, r1) =>
              match MiniPy.strip_prefix ":" (skip_ws r1) with
              | Some r2 =>
                  match parse_value fuel' r2 with
                  | Some (v, r3) =>
                      let r3 := skip_ws r3 in
                      match MiniPy.strip_prefix "," r3 with
                      | Some r4 => match parse_members fuel' r4 with
                                   | Some (kvs, r5) => Some ((k, v) :: kvs, r5)
                                   | None => None
                                   end
                      | None => match MiniPy.strip_prefix "}" r3 with
                                | Some r4 => Some ([(k, v)], r4)
                                | None => None
                                end
                      end
                  | None => None
                  end
              | None => None
              end
          | None => None
          end
      | None => None
      end
  end.

Definition json_loads (s : string) : except value :=
  match parse_value (2 * String.length s + 2) s with
  | Some (v, r) =>
      if bool_decide (skip_ws r = "") then Return v
      else Raise (mk_exn JSONDecodeError "Extra data")
  | None => Raise (mk_exn JSONDecodeError "Expecting value")
  end.

(** [{"code": "<src>"}], the payload of a code-execution request. *)
Definition code_payload (src : string) : string :=
  "{" ++ quote ++ "code" ++ quote ++ ": " ++ quote ++ src ++ quote ++ "}".

End MiniJson.

(** ** The scenario of the specification, as a property of an interpreter

    What the interpreter has to do with the two programs [x = 2] and
    [print(x)] for the scenario to be the one the specification describes.
    [exec(code, ns)] looks names up in [ns] and then in the built-ins, and
    puts the built-ins into [ns] under [__builtins__] when [ns] has no
    such key. So the runs are described for the namespaces in which
    [print] means the built-in, and nothing is required of what a run does
    to names other than [x], beyond keeping [print] the built-in. Both
    programs parse; the first binds [x] and prints nothing; the second
    prints the value of [x] when [x] is bound, and raises [NameError],
    printing nothing, when it is not. *)

Module Scenario.
Import Py Sys Interp.

(** [print] is not bound in [ns], and [__builtins__], if bound, is the
    interpreter's own. *)
Definition plain (builtins : value) (ns : gmap string value) : Prop :=
  ns !! "print" = None
  ∧ (ns !! "__builtins__" = None ∨ ns !! "__builtins__" = Some builtins).

Record python_semantics (I : interpreter) (builtins : value) : Prop := {
  parses_assign : ast_parse I "x = 2" = None;
  parses_print : ast_parse I "print(x)" = None;
  runs_assign : ∀ n m, 0 < n → plain builtins (globals m) →
    let s := run I n (compile I "x = 2") m in
    snap_status s = Finished
    ∧ globals (snap_mem s) !! "x" = Some (VInt 2)
    ∧ plain builtins (globals (snap_mem s))
    ∧ proc (snap_mem s) = proc m;
  runs_print : ∀ n m, 0 < n → plain builtins (globals m) →
    globals m !! "x" = Some (VInt 2) →
    let s := run I n (compile I "print(x)") m in
    snap_status s = Finished
    ∧ proc (snap_mem s) = print "2" (proc m);
  faults_print : ∀ n m, 0 < n → plain builtins (globals m) →
    globals m !! "x" = None →
    let s := run I n (compile I "print(x)") m in
    ∃ e, snap_status s = Failed e ∧ exn_class e = NameError
         ∧ proc (snap_mem s) = proc m
}.

End Scenario.


(** ** Vocabulary for the properties of the agent *)

Module AgentSpec.
Import Py Agent.

(** The number of messages with role [system]. *)
Definition count_system (ms : list Message) : nat :=
  length (filter (λ m, role m = "system") ms).

(** [history[0].role == system]. *)
Definition leads_with_system (ms : list Message) : bool :=
  match ms with
  | m :: _ => bool_decide (role m = "system")
  | [] => false
  end.

(** The faults line 181 catches. *)
Definition caught : list exc_class :=
  [TypeError; ValueError; AttributeError; RuntimeError].

(** The tool message for request [tc] with content [text]. *)
Definition reply (tc : ToolCall) (text : string) : Message :=
  mk_message "tool" (Some text) [] (Some (tc_id tc)) (Some (tc_name tc)).

Section WithEnvironment.
Context {W : Type}.
Variable json_loads : string → except value.
Variable repr : value → string.
Variable completion : option (list CleanTool) → list Message → except Response.

(** Lines 160-164: the arguments as they are passed to the tool. *)
Definition tool_args_of (tc : ToolCall) : except value :=
  bind (json_loads (tc_arguments tc))
       (λ tool_args,
          if decide (tc_name tc = "code_execution")
          then py_setitem tool_args "kernel" VKernel
          else Return tool_args).

(** From [self], the history grew by [new], one tool message per
    request of [calls], in the order of [calls] and carrying their
    ids. *)
Definition answered (calls : list ToolCall) (self self' : Agent W) : Prop :=
  ∃ new, messages self' = (messages self ++ new)%list
         ∧ Forall (λ m, role m = "tool") new
         ∧ tool_call_id <$> new = (λ tc, Some (tc_id tc)) <$> calls.

(** A request that ends in a tool message: its payload is malformed;
    or it reaches the registry (for [code_execution] the payload has to
    be an object for that) and the tool is unknown, or returns, or
    raises a fault line 181 catches. *)
Definition recoverable (reg : gmap string (callable W)) (tc : ToolCall) : Prop :=
  match json_loads (tc_arguments tc) with
  | Raise e => matches e [JSONDecodeError] = true
  | Return v =>
      match tool_args_of tc with
      | Raise _ => False
      | Return tool_args =>
          match reg !! tc_name tc with
          | None => True
          | Some f =>
              ∀ w e, (call_with_kwargs f tool_args w).1 = Raise e →
                     matches e caught = true
          end
      end
  end.

(** Dispatching the single request [tc] from [self] appends one tool
    message, with content [text]. *)
Definition reply_content (self : Agent W) (tc : ToolCall) (text : string) : Prop :=
  ∃ self', _process_tool_calls json_loads repr [tc] self = (Return (), self')
           ∧ messages self' = (messages self ++ [reply tc text])%list.

(** One completed round of the loop of [query]: a completion with tool
    requests, all of them dispatched. *)
Definition turn (self self' : Agent W) : Prop :=
  ∃ response,
    _make_api_call completion self = Return response
    ∧ resp_tool_calls response ≠ []
    ∧ _process_tool_calls json_loads repr (resp_tool_calls response)
        (append (assistant_message response) self) = (Return (), self').

End WithEnvironment.

End AgentSpec.

(** ** A concrete agent

    The tools of [tools_schema.py] over the reference interpreter, and two
    more tools: one that fails with a [KeyError], one with a
    [ValueError]. *)

Module Demo.
Import Py Agent.

Definition symbol_lookup : callable Kernel.state :=
  λ kwargs st, (Raise (mk_exn KeyError "'symbol'"), st).

Definition parse_number : callable Kernel.state :=
  λ kwargs st, (Raise (mk_exn ValueError "invalid literal for int()"), st).

Definition tools : list (ToolSpec Kernel.state) :=
  (Tools.TOOLS_SCHEMA MiniPy.interp
     ++ [ mk_tool_spec "function" (Some "symbol_lookup") "" "" (Some symbol_lookup);
          mk_tool_spec "function" (Some "parse_number") "" "" (Some parse_number) ])%list.

(** A completion service that answers at once. *)
Definition answer : option (list CleanTool) → list Message → except Response :=
  λ _ _, Return (mk_response (Some "done") []).

(** A completion service that asks for [calls] once and then answers. *)
Definition ask (calls : list ToolCall)
    : option (list CleanTool) → list Message → except Response :=
  λ _ ms, match last ms with
          | Some m => if decide (role m = "user")
                      then Return (mk_response None calls)
                      else Return (mk_response (Some "done") [])
          | None => Return (mk_response (Some "done") [])
          end.

Definition agent (history : option (list Message)) : Agent Kernel.state :=
  __init__ "You are a coding agent." tools history (MiniPy.fresh_kernel 30).

End Demo.

(** ** Concrete requests and sessions *)

Module Cases.
Import Py Agent.

(** Requests as a completion may carry them. *)
Definition malformed : ToolCall := mk_tool_call "call_1" "code_execution" "{".
Definition unknown : ToolCall := mk_tool_call "call_2" "web_search" "{}".
Definition bad_number : ToolCall := mk_tool_call "call_3" "parse_number" "{}".
Definition run_code : ToolCall :=
  mk_tool_call "call_4" "code_execution" (MiniJson.code_payload "x = 2").
Definition lookup : ToolCall := mk_tool_call "call_5" "symbol_lookup" "{}".
Definition unknown_malformed : ToolCall := mk_tool_call "call_6" "web_search" "{".

(** The requests of one assistant message: three that fail in the three
    recoverable ways, and one that succeeds. *)
Definition mixed_turn : list ToolCall :=
  [malformed; unknown; bad_number; run_code].

(** A history handed to the constructor that holds a system message
    which is not its first message. *)
Definition inherited : list Message :=
  [user_message "hello"; system_message "You are a poet."].

(** The state of a session when the first completion is requested, and
    at the moment the requests of that completion are dispatched. *)
Definition asked : Agent Kernel.state :=
  append (user_message "find the parser")
    (_set_system_prompt "You are a coding agent." (Demo.agent None)).

Definition dispatching (calls : list ToolCall) : Agent Kernel.state :=
  append (assistant_message (mk_response None calls)) asked.

(** A code-execution request whose payload is JSON but not an object,
    the same payload for another tool, and a code-execution request for
    code that does not parse. *)
Definition null_payload : ToolCall := mk_tool_call "call_7" "code_execution" "null".
Definition null_number : ToolCall := mk_tool_call "call_8" "parse_number" "null".
Definition bad_code : ToolCall :=
  mk_tool_call "call_9" "code_execution" (MiniJson.code_payload "x = (").

(** A program that prints and then does not end. *)
Definition print_then_loop : string :=
  "x = 2" ++ Sys.newline ++ "print(x)" ++ Sys.newline ++ "while True: pass".

End Cases.

(** ** [repository_singleton.py] and [functions/search.py] *)

Module Repo.
Import Py.

Section WithRepository.
(** The instances of [coderag.Repository]. *)
Variable Repository : Type.
(** [repository.search(query, top_k=k)]. *)
Variable search : Repository → string → Z → except value.

(** The class [RepositorySingleton] and its instances. An instance
    holds the attribute [_repository] once [initialize] has set it;
    until then reading it gives the class attribute, [None]. *)
Record classes : Type := mk_classes {
  _instance : option nat;                 (* the class attribute *)
  objects : list (option Repository)      (* [_repository] of each instance *)
}.

(** The module as imported: no instance yet. *)
Definition loaded : classes := mk_classes None [].

(** Lines 12-15: [RepositorySingleton()]. *)
Definition __new__ (s : classes) : nat * classes :=
  match _instance s with
  | None => (length (objects s),
             mk_classes (Some (length (objects s))) (objects s ++ [None])%list)
  | Some i => (i, s)
  end.

(** Lines 17-23. *)
Definition initialize (self : nat) (repository : Repository) (s : classes)
    : classes :=
  mk_classes (_instance s) (<[self := Some repository]> (objects s)).

(** Lines 25-38. *)
Definition get_repository_of (self : nat) (s : classes) : except Repository :=
  match objects s !! self with
  | Some (Some repository) => Return repository
  | _ => Raise (mk_exn RuntimeError
                  "Repository not initialized. Call initialize() first.")
  end.


(** Lines 40-45; the assignment under the [if] clears the attribute of
    the instance the class attribute names at that point. *)
Definition reset (s : classes) : classes :=
  let s1 := mk_classes None (objects s) in
  match _instance s1 with
  | Some i => mk_classes (_instance s1) (<[i := None]> (objects s1))
  | None => s1
  end.

(** Lines 49-58: the module-level accessor. *)
Definition get_repository (s : classes) : except Repository * classes :=
  let '(self, s1) := __new__ s in
  (get_repository_of self s1, s1).

(** [RepositorySingleton().initialize(repo)], as [main.py] calls it. *)
Definition install (repository : Repository) (s : classes) : classes :=
  let '(self, s1) := __new__ s in
  initialize self repository s1.

(** [functions/search.py]: [code_search(query, top_k=5)]. *)
Definition code_search (query : string) (top_k : option Z) (s : classes)
    : except value * classes :=
  let '(r, s1) := get_repository s in
  (bind r (λ repository, search repository query (default 5%Z top_k)), s1).

(** What [get_repository] raises when there is no repository. *)
Definition not_initialized : exn :=
  mk_exn RuntimeError "Repository not initialized. Call initialize() first.".

(** Every instance the class attribute names exists. *)
Definition well_formed (s : classes) : Prop :=
  match _instance s with
  | Some i => i < length (objects s)
  | None => True
  end.

End WithRepository.

Arguments mk_classes {Repository} _ _.
Arguments loaded {Repository}.
Arguments _instance {Repository} _.
Arguments objects {Repository} _.
Arguments __new__ {Repository} _.
Arguments initialize {Repository} _ _ _.
Arguments get_repository_of {Repository} _ _.
Arguments reset {Repository} _.
Arguments get_repository {Repository} _.
Arguments install {Repository} _ _.
Arguments code_search {Repository} _ _ _ _.
Arguments well_formed {Repository} _.

End Repo.

(** ** [main.py] *)

Module Main.
Import Py Interp Agent.

Section WithEnvironment.
Variable I : interpreter.
Variable json_loads : string → except value.
Variable repr : value → string.
Variable completion : option (list CleanTool) → list Message → except Response.
(** [codeact_retrieval.functions.FUNCTIONS], the initial namespace. *)
Variable FUNCTIONS : gmap string value.
(** [codeact_retrieval.utils.prompts.system_prompt]. *)
Variable system_prompt : string.

(** Lines 11-29; [api_key] is what [os.getenv] gives. The kernel is
    constructed first, with no bootstrap code (so no fuel is needed)
    and the default timeout. *)
Definition initialize_agent (api_key : option string) (p : Sys.process)
    : option (except (Agent Kernel.state) * Sys.process) :=
  if negb (truthy (default "" api_key)) then
    Some (Raise (mk_exn SystemExit "1"),
          Sys.print "Please set your API key in a .env file or environment variable."
            (Sys.print "Error: ANTHROPIC_API_KEY not found in environment variables." p))
  else
    match Kernel.__init__ I (Some FUNCTIONS) "" 30 0 p with
    | Some (r, st) =>
        Some (bind r (λ _, Return (Agent.__init__ system_prompt
                                     (Tools.TOOLS_SCHEMA I) None st)),
              Kernel.process st)
    | None => None
    end.

(** Lines 54-69: the prompt loop, over the lines [input] yields. Each
    query is given [fuel] completions; [None]: a query has not ended
    within that. Reading past the last line raises [EOFError]. *)
Fixpoint prompt_loop (lines : list string) (fuel : nat) (agent : Agent Kernel.state)
    : option (except ()) * Agent Kernel.state :=
  match lines with
  | [] => (Some (Raise (mk_exn (UserDefined "EOFError" Exception)
                          "EOF when reading a line")),
           agent)
  | user_prompt :: rest =>
      if decide (user_prompt = "exit") then (Some (Return ()), agent)
      else
        match query json_loads repr completion user_prompt fuel agent with
        | (Some (Return _), agent') => prompt_loop rest fuel agent'
        | (Some (Raise e), agent') => (Some (Raise e), agent')
        | (None, agent') => (None, agent')
        end
  end.

End WithEnvironment.

End Main.

(** ** More vocabulary for the agent *)

Module AgentSpec2.
Import Py Agent.

(** Lines 47-52: the spec [tool] puts [f] into the mapping under [n]. *)
Definition registers {W} (tool : ToolSpec W) (n : string) (f : callable W) : Prop :=
  tool_type tool = "function" ∧ fn_name tool = Some n ∧ n ≠ ""
  ∧ fn_callable tool = Some f.

(** Lines 130-141: what the completion service is told of [tool]. *)
Definition advertised {W} (tool : ToolSpec W) : CleanTool :=
  mk_clean_tool (fn_name tool) (fn_description tool) (fn_parameters tool).

End AgentSpec2.

(** ** More concrete cases *)

Module Cases2.
Import Py Agent.

(** A completion service that cannot be reached. *)
Definition unavailable : option (list CleanTool) → list Message → except Response :=
  λ _ _, Raise (mk_exn (UserDefined "APIConnectionError" Exception)
                  "Connection error.").

(** A code-execution request whose payload names a kernel of its own:
    [{"kernel": 1, "code": "x = 2"}]. *)
Definition smuggled : ToolCall :=
  mk_tool_call "call_10" "code_execution"
    ("{" ++ MiniJson.quote ++ "kernel" ++ MiniJson.quote ++ ": 1, "
         ++ MiniJson.quote ++ "code" ++ MiniJson.quote ++ ": "
         ++ MiniJson.quote ++ "x = 2" ++ MiniJson.quote ++ "}").

(** A code-execution request with an empty object as payload. *)
Definition no_code : ToolCall := mk_tool_call "call_11" "code_execution" "{}".

(** Two entries with the same name, and one that has no callable. *)
Definition first_f : ToolSpec Kernel.state :=
  mk_tool_spec "function" (Some "f") "first" "" (Some Demo.parse_number).
Definition second_f : ToolSpec Kernel.state :=
  mk_tool_spec "function" (Some "f") "second" "" (Some Demo.symbol_lookup).
Definition no_callable : ToolSpec Kernel.state :=
  mk_tool_spec "function" (Some "g") "declared only" "" None.

(** A kernel as [PersistentKernel(namespace={"y": 1}, imports="print(y)")]
    leaves it: the bootstrap code needs a binding of the initial
    namespace. *)
Definition bad_bootstrap : Kernel.state :=
  Kernel.mk_state (Kernel.mk_kernel {["y" := VInt 1]} "print(y)" 30 [])
                  (Sys.mk_process Sys.Console ("1" ++ Sys.newline) "" []).

(** Repositories that answer a search with one line naming them. *)
Definition search (r : string) (query : string) (top_k : Z) : except value :=
  Return (VList [VStr (r ++ ": " ++ query); VInt top_k]).

End Cases2.
(** * Properties of the kernel *)

Module KernelFacts.
Import Py Sys Interp Kernel.

Section WithInterpreter.
Variable I : interpreter.

Lemma getvalue_new_StringIO p :
  getvalue (new_StringIO p).1 (new_StringIO p).2 = "".
Proof.
  unfold getvalue, new_StringIO; simpl.
  by rewrite lookup_app_r, Nat.sub_diag.
Qed.

Lemma redirect_self st : self (redirect st).2 = self st.
Proof. reflexivity. Qed.

Lemma redirect_stdout st :
  sys_stdout (process (redirect st).2) = StringIO (redirect st).1.
Proof. reflexivity. Qed.

(** The only exception the body of the [try] raises is the
    [TimeoutError] of line 79. *)
Lemma execute_try_raises code captured st e :
  (execute_try I code captured st).1 = Raise e →
  is_alive (exec_thread I code st) = true
  ∧ e = mk_exn TimeoutError
          ("Execution timed out after " ++ pretty (timeout (self st)) ++ " seconds").
Proof.
  unfold execute_try. destruct (is_alive _); simpl; [|done].
  intros [= <-]. done.
Qed.

(** [execute] returns a result on every path; nothing is raised to the
    caller. *)
Lemma execute_returns code st : ∃ r, (execute I code st).1 = Return r.
Proof.
  destruct code; simpl; eauto.
  destruct (execute_try I s _ _) as [r st2] eqn:E; simpl.
  destruct r as [r|e]; simpl; eauto.
  apply (f_equal fst), execute_try_raises in E as [_ ->]. simpl. eauto.
Qed.

(** What [execute] makes of the unit it started. *)
Lemma execute_unfold code st :
  execute I (VStr code) st =
    let captured := (redirect st).1 in
    let s := exec_thread I code (redirect st).2 in
    (Return (if is_alive s
             then mk_result false (getvalue captured (proc (snap_mem s)))
                    (Some ("Execution timed out after "
                             ++ pretty (timeout (self st)) ++ " seconds"))
             else mk_result true (getvalue captured (proc (snap_mem s))) None),
     mk_state (mk_kernel (globals (snap_mem s)) (imports (self st))
                         (timeout (self st)) (background_threads (self st)))
              (set_stdout (sys_stdout (process st)) (proc (snap_mem s)))).
Proof.
  unfold execute, execute_try. simpl.
  destruct (is_alive _); reflexivity.
Qed.

Lemma syntax_defect_fails_unit code st d :
  ast_parse I code = Some d →
  snap_status (exec_thread I code st)
    = Failed (mk_exn SyntaxError ("Invalid Python syntax: " ++ d)).
Proof.
  intros H. unfold exec_thread, thread_run, _safe_exec. by rewrite H.
Qed.

(** C1 (the code departs from the claim). When the submitted code ends
    by raising an exception [e] before [join] returns, be it the
    [SyntaxError] of the parse check or a fault of the running code,
    [execute] returns [success = True] and [error = None]: the
    exception ended the unit the code ran in and never reaches the
    [except] clause of [execute]. *)
Theorem execute_reports_success_when_code_fails code st e :
  snap_status (exec_thread I code (redirect st).2) = Failed e →
  (execute I (VStr code) st).1 =
    Return (mk_result true
              (getvalue (redirect st).1
                        (proc (snap_mem (exec_thread I code (redirect st).2))))
              None).
Proof.
  intros H. rewrite execute_unfold. cbv zeta.
  unfold is_alive. rewrite H. reflexivity.
Qed.


(** C8. [execute_background] returns [success = True], the fixed
    message and [error = None], whatever the code is and does. *)
Theorem execute_background_acknowledges code st :
  (execute_background I code st).1
    = Return (mk_result true "Code started in background thread" None).
Proof. reflexivity. Qed.

(** C9. For an argument that is not a string, [execute] returns the
    fixed error result, raises nothing, and leaves the kernel, its
    namespace and the process as they were. *)
Theorem execute_rejects_non_string code st :
  is_str code = false →
  execute I code st
    = (Return (mk_result false "" (Some "Code must be a string")), st).
Proof. destruct code; simpl; intros; done. Qed.

(** C10. After [execute], on each of its return paths, [sys.stdout] is
    bound to what it was bound to before the call. *)
Theorem execute_restores_stdout code st :
  sys_stdout (process (execute I code st).2) = sys_stdout (process st).
Proof.
  destruct code; try reflexivity.
  rewrite execute_unfold. reflexivity.
Qed.

(** Between calls the namespace is what the last code left of it. *)
Lemma execute_namespace code st :
  namespace (self (execute I (VStr code) st).2)
    = globals (snap_mem (exec_thread I code (redirect st).2)).
Proof. rewrite execute_unfold. reflexivity. Qed.

(** [reset] leaves the namespace that constructing a kernel with no
    initial namespace, in the same process, gives. *)
Lemma reset_is_construction fuel st :
  reset I fuel st =
    match __init__ I None (imports (self st)) (timeout (self st)) fuel
                   (process st) with
    | Some (r, st0) =>
        Some (r, mk_state (mk_kernel (namespace (self st0)) (imports (self st0))
                                     (timeout (self st0))
                                     (background_threads (self st)))
                          (process st0))
    | None => None
    end.
Proof.
  unfold reset, __init__. destruct (truthy _); [|reflexivity].
  unfold memory_of; simpl. destruct (call _ _ _) as [[r m]|]; reflexivity.
Qed.

Lemma reset_timeout fuel st r st' :
  reset I fuel st = Some (r, st') → timeout (self st') = timeout (self st).
Proof.
  unfold reset. destruct (truthy _).
  - destruct (call _ _ _) as [[r0 m]|]; [|done]. by intros [= <- <-].
  - by intros [= <- <-].
Qed.

Lemma exec_thread_parsed code st :
  ast_parse I code = None →
  exec_thread I code st
    = thread_run (λ n m, run I n (compile I code) m)
                 (join_ticks (timeout (self st))) (memory_of st).
Proof.
  intros H. unfold exec_thread, thread_run, _safe_exec. by rewrite H.
Qed.

(** C7 (the code departs from the claim). For a kernel without
    bootstrap code, with a positive timeout and a namespace in which
    [print] is the built-in, and an interpreter that runs the two
    programs as Python does: after [execute("x = 2")] the namespace
    binds [x], and [execute("print(x)")] succeeds with output
    ["2\n"]; [reset()] returns and leaves the empty namespace, the
    one construction gives; the unit started by the next
    [execute("print(x)")] ends with a [NameError], and yet that call
    returns [success = True], an empty output and [error = None]: the
    fault is not in the result. *)
Theorem fault_after_reset_is_reported_as_success st fuel builtins :
  Scenario.python_semantics I builtins →
  imports (self st) = "" →
  (0 < timeout (self st))%Z →
  Scenario.plain builtins (namespace (self st)) →
  let st1 := (execute I (VStr "x = 2") st).2 in
  let r2 := execute I (VStr "print(x)") st1 in
  ∃ st3,
    reset I fuel r2.2 = Some (Return (), st3)
    ∧ namespace (self st1) !! "x" = Some (VInt 2)
    ∧ r2.1 = Return (mk_result true ("2" ++ newline) None)
    ∧ contains ("2" ++ newline) "2" = true
    ∧ namespace (self st3) = ∅
    ∧ (∃ st0, __init__ I None (imports (self st)) (timeout (self st)) fuel
                       (process r2.2) = Some (Return (), st0)
              ∧ namespace (self st3) = namespace (self st0))
    ∧ (∃ e, snap_status (exec_thread I "print(x)" (redirect st3).2) = Failed e
            ∧ exn_class e = NameError)
    ∧ (execute I (VStr "print(x)") st3).1 = Return (mk_result true "" None).
Proof.
  intros [Hpa Hpp Hra Hrp Hfp] Hi Ht Hplain st1 r2.
  assert (Hticks : ∀ s : state, timeout (self s) = timeout (self st) →
                                0 < join_ticks (timeout (self s))).
  { intros s ->. unfold join_ticks. lia. }
  (* first call *)
  assert (H1 : namespace (self st1) !! "x" = Some (VInt 2)
               ∧ Scenario.plain builtins (namespace (self st1))
               ∧ timeout (self st1) = timeout (self st)
               ∧ imports (self st1) = imports (self st)).
  { subst st1. rewrite execute_unfold; simpl.
    rewrite exec_thread_parsed by done. unfold thread_run.
    destruct (Hra (join_ticks (timeout (self st))) (memory_of (redirect st).2))
      as (Hs & Hg & Hpl & _); [by apply Hticks|exact Hplain|].
    simpl in *. rewrite Hs. done. }
  destruct H1 as (Hx1 & Hpl1 & Ht1 & Hi1).
  (* second call *)
  pose proof (Hrp (join_ticks (timeout (self st1))) (memory_of (redirect st1).2)
                  (Hticks _ Ht1) Hpl1 Hx1) as (Hs2 & Hp2).
  assert (H2 : r2.1 = Return (mk_result true ("2" ++ newline) None)
               ∧ imports (self r2.2) = imports (self st)
               ∧ timeout (self r2.2) = timeout (self st)).
  { subst r2. rewrite execute_unfold; simpl.
    rewrite exec_thread_parsed by done. unfold thread_run.
    simpl in *. rewrite Hs2. unfold is_alive. rewrite Hs2, Hp2. simpl.
    split; [|done]. do 2 f_equal.
    unfold print, write, getvalue; simpl.
    rewrite list_lookup_alter_eq, lookup_app_r, Nat.sub_diag by done.
    reflexivity. }
  destruct H2 as (Hr2 & Hi2 & Ht2).
  (* reset *)
  set (st3 := mk_state (mk_kernel ∅ "" (timeout (self st))
                                  (background_threads (self r2.2)))
                       (process r2.2)).
  assert (Hreset : reset I fuel r2.2 = Some (Return (), st3)).
  { unfold reset. rewrite Hi2, Hi, Ht2. reflexivity. }
  exists st3. split; [exact Hreset|]. split; [exact Hx1|]. split; [exact Hr2|].
  split; [reflexivity|]. split; [reflexivity|]. split.
  { rewrite Hi. eexists. split; reflexivity. }
  (* the call after reset *)
  destruct (Hfp (join_ticks (timeout (self (redirect st3).2)))
                (memory_of (redirect st3).2)) as (e & He & Hc & Hp).
  { apply Hticks. reflexivity. }
  { split; [apply lookup_empty|]. left. apply lookup_empty. }
  { apply lookup_empty. }
  cbv zeta in He, Hp.
  assert (Hthread : snap_status (exec_thread I "print(x)" (redirect st3).2)
                    = Failed e).
  { rewrite exec_thread_parsed by done. unfold thread_run. by rewrite He. }
  split; [by eauto|].
  rewrite execute_unfold. cbv zeta.
  unfold is_alive. rewrite Hthread.
  rewrite bool_decide_eq_false_2 by done. cbn [fst]. do 2 f_equal.
  rewrite exec_thread_parsed by done. unfold thread_run. rewrite He.
  cbn [snap_mem proc]. rewrite Hp. unfold getvalue, write_stderr. simpl.
  by rewrite lookup_app_r, Nat.sub_diag.
Qed.

End WithInterpreter.

End KernelFacts.

(** * Properties of the agent *)

Module AgentFacts.
Import Py Agent AgentSpec.

Lemma startswith_app p s : startswith (p ++ s) p = true.
Proof.
  induction p as [|a p IH]; simpl; [done|].
  rewrite bool_decide_eq_true_2 by done. done.
Qed.

Lemma count_system_app ms1 ms2 :
  count_system (ms1 ++ ms2)%list = count_system ms1 + count_system ms2.
Proof. unfold count_system. by rewrite filter_app, length_app. Qed.

Lemma count_system_none ms :
  Forall (λ m, role m ≠ "system") ms → count_system ms = 0.
Proof.
  unfold count_system. induction 1 as [|m ms Hm _ IH]; [done|].
  by rewrite filter_cons_False.
Qed.

Lemma leads_with_system_app ms1 ms2 :
  leads_with_system ms1 = true → leads_with_system (ms1 ++ ms2)%list = true.
Proof. by destruct ms1. Qed.

Section WithEnvironment.
Context {W : Type}.
Variable json_loads : string → except value.
Variable repr : value → string.
Variable completion : option (list CleanTool) → list Message → except Response.

Local Abbreviation execute_tool_call := (_execute_tool_call (W:=W) json_loads).
Local Abbreviation process_tool_calls := (_process_tool_calls (W:=W) json_loads repr).
Local Abbreviation loop := (conversation_loop (W:=W) json_loads repr completion).
Local Abbreviation args_of := (tool_args_of json_loads).

(** *** One request *)

Lemma execute_tool_call_frame (self : Agent W) tc :
  messages (execute_tool_call self tc).2 = messages self
  ∧ _tool_functions (execute_tool_call self tc).2 = _tool_functions self
  ∧ system_prompt (execute_tool_call self tc).2 = system_prompt self
  ∧ tools (execute_tool_call self tc).2 = tools self.
Proof.
  unfold _execute_tool_call.
  destruct (bind _ _) as [v|e]; [|by destruct (matches _ _)].
  destruct (_ !! _) as [f|]; [|done].
  by destruct (call_with_kwargs _ _ _).
Qed.

Lemma execute_tool_call_ids (self : Agent W) tc r self' :
  execute_tool_call self tc = (Return r, self') →
  tr_tool_call_id r = tc_id tc ∧ tr_tool_name r = tc_name tc.
Proof.
  unfold _execute_tool_call.
  destruct (bind _ _) as [v|e].
  - destruct (_ !! _) as [f|]; [|by intros [= <- _]].
    destruct (call_with_kwargs _ _ _) as [r0 w].
    destruct (try_except _ _ _); simpl; [|done]. by intros [= <- _].
  - destruct (matches _ _); [|done]. by intros [= <- _].
Qed.

(** The first parse (for display) raises nothing when the second one
    yields arguments, or fails as malformed. *)
Lemma show_arguments_parsed tc v :
  args_of tc = Return v → show_arguments json_loads tc = Return ().
Proof.
  unfold tool_args_of, show_arguments.
  destruct (json_loads _) as [a|e]; simpl; [|done].
  destruct (decide _); [|done].
  destruct a; simpl; try done.
  destruct (bool_decide _) eqn:E; simpl; [|done].
  apply bool_decide_eq_true in E as [x ->]. done.
Qed.

Lemma show_arguments_malformed tc e :
  json_loads (tc_arguments tc) = Raise e →
  matches e [JSONDecodeError] = true →
  show_arguments json_loads tc = Return ().
Proof. unfold show_arguments. intros -> H. simpl in *. by rewrite H. Qed.

Lemma execute_tool_call_malformed (self : Agent W) tc e :
  json_loads (tc_arguments tc) = Raise e →
  matches e [JSONDecodeError] = true →
  execute_tool_call self tc =
    (Return (mk_tool_call_response (tc_id tc) (tc_name tc) (VDict [])
               (VStr ("Error parsing tool arguments: " ++ exn_str e))),
     self).
Proof. unfold _execute_tool_call. intros -> H. simpl in *. by rewrite H. Qed.

Lemma execute_tool_call_unknown (self : Agent W) tc v :
  args_of tc = Return v →
  _tool_functions self !! tc_name tc = None →
  execute_tool_call self tc =
    (Return (mk_tool_call_response (tc_id tc) (tc_name tc) v
               (VStr ("Error: Tool '" ++ tc_name tc ++ "' not found"))),
     self).
Proof.
  unfold _execute_tool_call, tool_args_of. intros -> ->. done.
Qed.

Lemma execute_tool_call_invoked (self : Agent W) tc v f r w :
  args_of tc = Return v →
  _tool_functions self !! tc_name tc = Some f →
  call_with_kwargs f v (env self) = (r, w) →
  execute_tool_call self tc =
    (match r with
     | Return out =>
         Return (mk_tool_call_response (tc_id tc) (tc_name tc) v out)
     | Raise e =>
         if matches e caught
         then Return (mk_tool_call_response (tc_id tc) (tc_name tc) v
                        (VStr ("Error executing tool '" ++ tc_name tc
                                 ++ "': " ++ exn_str e)))
         else Raise e
     end,
     set_env w self).
Proof.
  unfold _execute_tool_call, tool_args_of. intros -> -> ->.
  destruct r as [out|e]; [done|].
  unfold try_except, caught. by destruct (matches e _).
Qed.

(** *** The requests of one assistant message *)

Lemma process_tool_calls_cons (self : Agent W) tc rest r self1 :
  show_arguments json_loads tc = Return () →
  execute_tool_call self tc = (Return r, self1) →
  process_tool_calls (tc :: rest) self =
    process_tool_calls rest
      (append (reply tc (str_with repr (tr_tool_response r))) self1).
Proof.
  intros Hs He. simpl. rewrite Hs, He.
  destruct (execute_tool_call_ids _ _ _ _ He) as [Hid Hn].
  unfold tool_message, reply. by rewrite Hid, Hn.
Qed.

Lemma process_tool_calls_app pre post (self : Agent W) :
  process_tool_calls (pre ++ post)%list self =
    match process_tool_calls pre self with
    | (Return _, self1) => process_tool_calls post self1
    | (Raise e, self1) => (Raise e, self1)
    end.
Proof.
  revert self. induction pre as [|tc pre IH]; intros self; simpl; [done|].
  destruct (show_arguments _ _); [|done].
  destruct (execute_tool_call _ _) as [[r|e] self1]; [|done].
  apply IH.
Qed.

(** Whatever the outcome, dispatching only appends tool messages, for
    the first requests of the list, in order. *)
Lemma process_tool_calls_grows calls (self : Agent W) :
  ∃ n new,
    messages (process_tool_calls calls self).2 = (messages self ++ new)%list
    ∧ Forall (λ m, role m = "tool") new
    ∧ tool_call_id <$> new = (λ tc, Some (tc_id tc)) <$> take n calls
    ∧ ((process_tool_calls calls self).1 = Return () → n = length calls)
    ∧ _tool_functions (process_tool_calls calls self).2 = _tool_functions self
    ∧ system_prompt (process_tool_calls calls self).2 = system_prompt self
    ∧ tools (process_tool_calls calls self).2 = tools self.
Proof.
  revert self. induction calls as [|tc calls IH]; intros self; simpl.
  { exists 0, []. by rewrite app_nil_r. }
  destruct (show_arguments _ _) as [[]|e].
  2:{ exists 0, []. by rewrite app_nil_r. }
  destruct (execute_tool_call_frame self tc) as (Hm & Hr & Hs & Ht).
  destruct (execute_tool_call self tc) as [[r|e] self1] eqn:E; simpl in *.
  2:{ exists 0, []. rewrite app_nil_r. by rewrite Hm, Hr, Hs, Ht. }
  destruct (execute_tool_call_ids _ _ _ _ E) as [Hid _].
  destruct (IH (append (tool_message r (str_with repr (tr_tool_response r))) self1))
    as (n & new & H1 & H2 & H3 & H4 & H5 & H6 & H7).
  exists (S n), (tool_message r (str_with repr (tr_tool_response r)) :: new).
  split. { rewrite H1. simpl. by rewrite Hm, <- app_assoc. }
  split. { by constructor. }
  split. { simpl. rewrite Hid. f_equal. exact H3. }
  split. { intros H. simpl. by rewrite H4. }
  rewrite H5, H6, H7. done.
Qed.

Lemma process_tool_calls_answered calls (self : Agent W) :
  (process_tool_calls calls self).1 = Return () →
  answered calls self (process_tool_calls calls self).2.
Proof.
  intros H.
  destruct (process_tool_calls_grows calls self)
    as (n & new & H1 & H2 & H3 & H4 & _).
  exists new. rewrite (H4 H), firstn_all in H3. done.
Qed.

Lemma recoverable_step (self : Agent W) tc :
  recoverable json_loads (_tool_functions self) tc →
  ∃ r self1, show_arguments json_loads tc = Return ()
             ∧ execute_tool_call self tc = (Return r, self1).
Proof.
  unfold recoverable. intros H.
  destruct (json_loads (tc_arguments tc)) as [a|e] eqn:Ej.
  - destruct (args_of tc) as [v|] eqn:Ev; [|done].
    rewrite (show_arguments_parsed _ _ Ev).
    destruct (_tool_functions self !! tc_name tc) as [f|] eqn:Ef.
    + destruct (call_with_kwargs f v (env self)) as [r w] eqn:Ec.
      rewrite (execute_tool_call_invoked _ _ _ _ _ _ Ev Ef Ec).
      destruct r as [out|e]; [by eauto|].
      rewrite (H (env self) e) by (by rewrite Ec). by eauto.
    + rewrite (execute_tool_call_unknown _ _ _ Ev Ef). by eauto.
  - rewrite (show_arguments_malformed _ _ Ej H),
            (execute_tool_call_malformed _ _ _ Ej H). by eauto.
Qed.

Lemma recoverable_returns calls (self : Agent W) :
  Forall (recoverable json_loads (_tool_functions self)) calls →
  (process_tool_calls calls self).1 = Return ().
Proof.
  revert self. induction calls as [|tc calls IH]; intros self Hall; [done|].
  inversion Hall as [|? ? Htc Hrest]; subst.
  destruct (recoverable_step self tc Htc) as (r & self1 & Hs & He).
  rewrite (process_tool_calls_cons _ _ _ _ _ Hs He).
  apply IH. simpl.
  destruct (execute_tool_call_frame self tc) as (_ & Hr & _).
  rewrite He in Hr. simpl in Hr. by rewrite Hr.
Qed.

(** *** The loop of [query] *)

Lemma loop_S fuel (self : Agent W) :
  loop (S fuel) self =
    match _make_api_call completion self with
    | Raise e => (Some (Raise e), self)
    | Return response =>
        let self1 := append (assistant_message response) self in
        if decide (resp_tool_calls response = []) then
          (Some (Return (mk_query_result (default "" (resp_content response)) None)),
           self1)
        else
          match process_tool_calls (resp_tool_calls response) self1 with
          | (Raise e, self2) => (Some (Raise e), self2)
          | (Return _, self2) => loop fuel self2
          end
    end.
Proof.
  cbn [conversation_loop].
  destruct (_make_api_call completion self) as [response|e]; [|done].
  by destruct (resp_tool_calls response).
Qed.

Lemma loop_grows fuel (self : Agent W) :
  ∃ new, messages (loop fuel self).2 = (messages self ++ new)%list
         ∧ Forall (λ m, role m ≠ "system") new
         ∧ system_prompt (loop fuel self).2 = system_prompt self.
Proof.
  revert self. induction fuel as [|fuel IH]; intros self.
  { exists []. simpl. by rewrite app_nil_r. }
  rewrite loop_S.
  destruct (_make_api_call completion self) as [response|e].
  2:{ exists []. simpl. by rewrite app_nil_r. }
  cbv zeta. destruct (decide (resp_tool_calls response = [])) as [Ec|Ec].
  { exists [assistant_message response]. simpl.
    split; [done|]. split; [|done]. by repeat constructor. }
  set (self1 := append (assistant_message response) self).
  destruct (process_tool_calls_grows (resp_tool_calls response) self1)
    as (n & new & H1 & H2 & _ & _ & _ & H6 & _).
  assert (Htool : Forall (λ m, role m ≠ "system") new).
  { eapply Forall_impl; [exact H2|]. by intros m ->. }
  destruct (process_tool_calls (resp_tool_calls response) self1)
    as [[[]|e] self2]; simpl in *.
  - destruct (IH self2) as (new' & H1' & H2' & H3').
    exists (assistant_message response :: new ++ new')%list.
    rewrite H1', H1, H3', H6. repeat split.
    + by rewrite <- !app_assoc.
    + constructor; [done|]. by apply Forall_app.
  - exists (assistant_message response :: new).
    rewrite H1, H6. repeat split.
    + by rewrite <- !app_assoc.
    + by constructor.
Qed.

Lemma set_system_prompt_spec (self : Agent W) :
  let ms := messages (_set_system_prompt (system_prompt self) self) in
  leads_with_system ms = true
  ∧ count_system ms
      = count_system (messages self)
        + (if leads_with_system (messages self) then 0 else 1)
  ∧ system_prompt (_set_system_prompt (system_prompt self) self)
      = system_prompt self.
Proof.
  unfold _set_system_prompt. destruct (messages self) as [|m ms] eqn:E; simpl.
  { by rewrite E. }
  destruct (decide (role m ≠ "system")) as [Hne|Heq]; simpl.
  - rewrite bool_decide_eq_false_2 by done.
    unfold count_system. rewrite (filter_cons_True _ (system_message _)) by done.
    simpl. repeat split. lia.
  - rewrite E. apply dec_stable in Heq. simpl.
    rewrite bool_decide_eq_true_2 by done. by rewrite Nat.add_0_r.
Qed.

Lemma query_spec prompt fuel (self : Agent W) :
  let ms := messages (query json_loads repr completion prompt fuel self).2 in
  leads_with_system ms = true
  ∧ count_system ms
      = count_system (messages self)
        + (if leads_with_system (messages self) then 0 else 1)
  ∧ system_prompt (query json_loads repr completion prompt fuel self).2
      = system_prompt self.
Proof.
  unfold query.
  destruct (set_system_prompt_spec self) as (H1 & H2 & H3).
  set (self1 := _set_system_prompt _ self) in *.
  destruct (loop_grows fuel (append (user_message prompt) self1))
    as (new & Hn1 & Hn2 & Hn3).
  cbv zeta. rewrite Hn1, Hn3. simpl. repeat split; [| |done].
  - rewrite <- app_assoc. by apply leads_with_system_app.
  - rewrite !count_system_app, (count_system_none new) by done.
    rewrite H2. unfold count_system at 2. simpl. lia.
Qed.

Lemma queries_keep_system prompts (self : Agent W) :
  leads_with_system (messages self) = true →
  let ms := messages (queries json_loads repr completion prompts self) in
  leads_with_system ms = true ∧ count_system ms = count_system (messages self).
Proof.
  revert self. induction prompts as [|[prompt fuel] prompts IH]; intros self H.
  { done. }
  simpl. destruct (query_spec prompt fuel self) as (H1 & H2 & _).
  destruct (IH _ H1) as [H3 H4]. split; [done|].
  rewrite H4, H2, H. lia.
Qed.

Lemma loop_turns n (s s' : Agent W) fuel :
  nsteps (turn json_loads repr completion) n s s' →
  loop (n + fuel) s = loop fuel s'.
Proof.
  induction 1 as [|n s s1 s' (response & Ha & Hc & Hp) _ IH]; [done|].
  rewrite Nat.add_succ_l, loop_S, Ha. cbv zeta.
  rewrite decide_False by done. by rewrite Hp.
Qed.

(** *** The claims *)

(** C3 (as amended). After [query] has been called one or more times,
    whatever the outcome of each call, the first message of the history
    has role [system], and the history holds the system messages it
    held at first, plus one if it did not start with one. Hence
    exactly one system message when the initial history had none. *)
Theorem system_message_after_queries prompts (self : Agent W) :
  prompts ≠ [] →
  let ms := messages (queries json_loads repr completion prompts self) in
  leads_with_system ms = true
  ∧ count_system ms
      = count_system (messages self)
        + (if leads_with_system (messages self) then 0 else 1)
  ∧ (count_system (messages self) = 0 → count_system ms = 1).
Proof.
  destruct prompts as [|[prompt fuel] prompts]; [done|]. intros _. simpl.
  destruct (query_spec prompt fuel self) as (H1 & H2 & _).
  destruct (queries_keep_system prompts _ H1) as [H3 H4].
  split; [done|]. rewrite H4, H2. split; [done|].
  intros H0. rewrite H0.
  destruct (messages self) as [|m ms]; [done|]. simpl.
  case_bool_decide as Hm; [|done].
  unfold count_system in H0. by rewrite filter_cons_True in H0.
Qed.

(** C4 (as amended). When every request of an assistant message is
    recoverable, dispatching them returns, and the history has grown by
    one tool message per request, in the order of the requests and
    with their ids. *)
Theorem recoverable_requests_answered calls (self : Agent W) :
  Forall (recoverable json_loads (_tool_functions self)) calls →
  (process_tool_calls calls self).1 = Return ()
  ∧ answered calls self (process_tool_calls calls self).2.
Proof.
  intros H. pose proof (recoverable_returns _ _ H) as Hr.
  split; [done|]. by apply process_tool_calls_answered.
Qed.

(** C5 (as amended). A request whose payload is malformed is answered
    by a tool message that starts with "Error parsing tool arguments:",
    and the requests after it are dispatched; a request whose payload
    yields arguments and whose tool is not registered is answered by
    "Error: Tool '<name>' not found", and the requests after it are
    dispatched. *)
Theorem refused_request_reply (self : Agent W) tc rest :
  (∀ e, json_loads (tc_arguments tc) = Raise e →
        matches e [JSONDecodeError] = true →
        let text := "Error parsing tool arguments: " ++ exn_str e in
        process_tool_calls (tc :: rest) self
          = process_tool_calls rest (append (reply tc text) self)
        ∧ startswith text "Error parsing tool arguments:" = true)
  ∧ (∀ v, args_of tc = Return v →
          _tool_functions self !! tc_name tc = None →
          process_tool_calls (tc :: rest) self
            = process_tool_calls rest
                (append (reply tc ("Error: Tool '" ++ tc_name tc ++ "' not found"))
                        self)).
Proof.
  split.
  - intros e Hj Hm text. split.
    + by rewrite (process_tool_calls_cons _ _ _ _ _
                    (show_arguments_malformed _ _ Hj Hm)
                    (execute_tool_call_malformed self _ _ Hj Hm)).
    + apply (startswith_app "Error parsing tool arguments:").
  - intros v Hv Hf.
    by rewrite (process_tool_calls_cons _ _ _ _ _
                  (show_arguments_parsed _ _ Hv)
                  (execute_tool_call_unknown self _ _ Hv Hf)).
Qed.

(** C6. When the callable of a registered tool raises [e]: if [e] is
    an instance of one of the four classes of line 181, the request is
    answered by "Error executing tool '<name>': <str(e)>" and the
    requests after it are dispatched; otherwise [e] leaves
    [_execute_tool_call] and [_process_tool_calls] and ends the loop
    of [query], and the history is the one accumulated up to the
    call. *)
Theorem tool_fault_caught_or_propagated (self : Agent W) tc rest f v e w :
  args_of tc = Return v →
  _tool_functions self !! tc_name tc = Some f →
  call_with_kwargs f v (env self) = (Raise e, w) →
  if matches e caught
  then process_tool_calls (tc :: rest) self
         = process_tool_calls rest
             (append (reply tc ("Error executing tool '" ++ tc_name tc
                                  ++ "': " ++ exn_str e))
                     (set_env w self))
  else execute_tool_call self tc = (Raise e, set_env w self)
       ∧ process_tool_calls (tc :: rest) self = (Raise e, set_env w self)
       ∧ messages (set_env w self) = messages self
       ∧ ∀ n fuel s0 sb response pre,
           nsteps (turn json_loads repr completion) n s0 sb →
           _make_api_call completion sb = Return response →
           resp_tool_calls response = (pre ++ tc :: rest)%list →
           process_tool_calls pre (append (assistant_message response) sb)
             = (Return (), self) →
           loop (n + S fuel) s0 = (Some (Raise e), set_env w self).
Proof.
  intros Hv Hf Hc.
  pose proof (execute_tool_call_invoked self _ _ _ _ _ Hv Hf Hc) as He.
  pose proof (show_arguments_parsed _ _ Hv) as Hs.
  cbv iota in He. destruct (matches e caught) eqn:Hm.
  - by rewrite (process_tool_calls_cons _ _ _ _ _ Hs He).
  - assert (Hp : process_tool_calls (tc :: rest) self = (Raise e, set_env w self)).
    { simpl. by rewrite Hs, He. }
    repeat split; try done.
    intros n fuel s0 sb response pre Hn Ha Hr Hpre.
    rewrite (loop_turns _ _ _ _ Hn), loop_S, Ha. cbv zeta.
    rewrite Hr, decide_False by (by destruct pre).
    by rewrite process_tool_calls_app, Hpre, Hp.
Qed.

End WithEnvironment.

End AgentFacts.

(** * Concrete runs *)

Module Runs.
Import Py Sys Interp Kernel Agent AgentSpec.

(** The reference interpreter runs the scenario as Python does. *)
Lemma MiniPy_python_semantics builtins :
  Scenario.python_semantics MiniPy.interp builtins.
Proof.
  split.
  - vm_compute; reflexivity.
  - vm_compute; reflexivity.
  - intros [|n] m Hn [Hp Hb]; [lia|].
    change (compile MiniPy.interp "x = 2") with [MiniPy.Assign "x" 2].
    simpl. rewrite lookup_insert_eq. unfold Scenario.plain.
    rewrite !lookup_insert_ne by done. done.
  - intros [|n] m Hn _ Hx; [lia|].
    change (compile MiniPy.interp "print(x)") with [MiniPy.Print "x"].
    simpl. rewrite Hx. done.
  - intros [|n] m Hn _ Hx; [lia|].
    change (compile MiniPy.interp "print(x)") with [MiniPy.Print "x"].
    simpl. rewrite Hx. simpl. eauto.
Qed.

Lemma execute_reports_success_when_code_fails_witness :
  snap_status (exec_thread MiniPy.interp "x = ("
                 (redirect (MiniPy.fresh_kernel 30)).2)
    = Failed (mk_exn SyntaxError "Invalid Python syntax: invalid syntax")
  ∧ (execute MiniPy.interp (VStr "x = (") (MiniPy.fresh_kernel 30)).1
    = Return (mk_result true "" None).
Proof.
  split; [vm_compute; reflexivity|].
  apply (KernelFacts.execute_reports_success_when_code_fails MiniPy.interp
           "x = (" (MiniPy.fresh_kernel 30)
           (mk_exn SyntaxError "Invalid Python syntax: invalid syntax")).
  vm_compute; reflexivity.
Defined.

(** A fault of running code is reported the same way. *)
Example execute_reports_success_on_NameError :
  execute MiniPy.interp (VStr "print(y)") (MiniPy.fresh_kernel 30)
  = (Return (mk_result true "" None),
     mk_state (mk_kernel ∅ "" 30 [])
       (mk_process Console ""
          ("Exception in thread: name 'y' is not defined" ++ newline) [""])).
Proof. vm_compute; reflexivity. Qed.


Lemma execute_rejects_non_string_witness :
  is_str (VInt 5) = false
  ∧ execute MiniPy.interp (VInt 5) (MiniPy.fresh_kernel 30)
    = (Return (mk_result false "" (Some "Code must be a string")),
       MiniPy.fresh_kernel 30).
Proof.
  split; [reflexivity|].
  apply (KernelFacts.execute_rejects_non_string MiniPy.interp (VInt 5)).
  reflexivity.
Defined.

Lemma fault_after_reset_is_reported_as_success_witness :
  ∃ st3,
    reset MiniPy.interp 0
      (execute MiniPy.interp (VStr "print(x)")
         (execute MiniPy.interp (VStr "x = 2") (MiniPy.fresh_kernel 30)).2).2
    = Some (Return (), st3)
    ∧ namespace (self (execute MiniPy.interp (VStr "x = 2")
                         (MiniPy.fresh_kernel 30)).2) !! "x" = Some (VInt 2)
    ∧ (execute MiniPy.interp (VStr "print(x)")
         (execute MiniPy.interp (VStr "x = 2") (MiniPy.fresh_kernel 30)).2).1
      = Return (mk_result true ("2" ++ newline) None)
    ∧ contains ("2" ++ newline) "2" = true
    ∧ namespace (self st3) = ∅
    ∧ (∃ st0, Kernel.__init__ MiniPy.interp None "" 30 0
                (process (execute MiniPy.interp (VStr "print(x)")
                            (execute MiniPy.interp (VStr "x = 2")
                               (MiniPy.fresh_kernel 30)).2).2)
              = Some (Return (), st0)
              ∧ namespace (self st3) = namespace (self st0))
    ∧ (∃ e, snap_status (exec_thread MiniPy.interp "print(x)" (redirect st3).2)
            = Failed e
            ∧ exn_class e = NameError)
    ∧ (execute MiniPy.interp (VStr "print(x)") st3).1
      = Return (mk_result true "" None).
Proof.
  apply (KernelFacts.fault_after_reset_is_reported_as_success MiniPy.interp
           (MiniPy.fresh_kernel 30) 0 (VObject "<module 'builtins'>")
           (MiniPy_python_semantics _)).
  - reflexivity.
  - reflexivity.
  - split; [reflexivity|]. left. reflexivity.
Defined.

(** The four calls, run. *)
Example scenario_run :
  (let '(r1, s1) := execute MiniPy.interp (VStr "x = 2") (MiniPy.fresh_kernel 30) in
   let '(r2, s2) := execute MiniPy.interp (VStr "print(x)") s1 in
   match reset MiniPy.interp 0 s2 with
   | Some (_, s3) => Some (r2, (execute MiniPy.interp (VStr "print(x)") s3).1)
   | None => None
   end)
  = Some (Return (mk_result true ("2" ++ newline) None),
          Return (mk_result true "" None)).
Proof. vm_compute; reflexivity. Qed.

(** *** The agent *)

Local Abbreviation dispatch := (_process_tool_calls MiniJson.json_loads MiniPy.str).
Local Abbreviation ask_all := (queries MiniJson.json_loads MiniPy.str Demo.answer).

Lemma system_message_after_queries_witness :
  [("find the parser", 3); ("and the lexer", 3)] ≠ []
  ∧ leads_with_system
      (messages (ask_all [("find the parser", 3); ("and the lexer", 3)]
                   (Demo.agent None))) = true
  ∧ count_system
      (messages (ask_all [("find the parser", 3); ("and the lexer", 3)]
                   (Demo.agent None)))
    = count_system (messages (Demo.agent None))
      + (if leads_with_system (messages (Demo.agent None)) then 0 else 1)
  ∧ (count_system (messages (Demo.agent None)) = 0 →
     count_system
       (messages (ask_all [("find the parser", 3); ("and the lexer", 3)]
                    (Demo.agent None))) = 1).
Proof.
  split; [done|].
  apply (AgentFacts.system_message_after_queries MiniJson.json_loads MiniPy.str
           Demo.answer [("find the parser", 3); ("and the lexer", 3)]
           (Demo.agent None)).
  done.
Defined.

(** C3 (as stated) fails: a session constructed over a history that
    holds a system message after its first message has two system
    messages after one query. *)
Lemma inherited_system_message_is_kept :
  count_system (messages (ask_all [("find the parser", 3)]
                            (Demo.agent (Some Cases.inherited)))) = 2
  ∧ ¬ (leads_with_system
         (messages (ask_all [("find the parser", 3)]
                      (Demo.agent (Some Cases.inherited)))) = true
       ∧ count_system
           (messages (ask_all [("find the parser", 3)]
                        (Demo.agent (Some Cases.inherited)))) = 1).
Proof.
  assert (H : count_system
                (messages (ask_all [("find the parser", 3)]
                             (Demo.agent (Some Cases.inherited)))) = 2)
    by (vm_compute; reflexivity).
  split; [exact H|]. intros [_ H']. rewrite H in H'. discriminate.
Qed.

Lemma code_execution_returns code st :
  ∃ text, (Tools.code_execution MiniPy.interp
             [("code", code); ("kernel", VKernel)] st).1 = Return (VStr text).
Proof.
  unfold Tools.code_execution. simpl.
  destruct (KernelFacts.execute_returns MiniPy.interp code st) as [r Hr].
  destruct (execute MiniPy.interp code st) as [x st']. simpl in Hr. subst x.
  simpl. eauto.
Qed.

Lemma mixed_turn_recoverable :
  Forall (recoverable MiniJson.json_loads
            (_tool_functions (Cases.dispatching Cases.mixed_turn)))
         Cases.mixed_turn.
Proof.
  assert (Hobj : MiniJson.json_loads "{}" = Return (VDict []))
    by (vm_compute; reflexivity).
  assert (Hcode : MiniJson.json_loads (MiniJson.code_payload "x = 2")
                  = Return (VDict [("code", VStr "x = 2")]))
    by (vm_compute; reflexivity).
  set (reg := _tool_functions (Cases.dispatching Cases.mixed_turn)).
  assert (H1 : reg !! "web_search" = None) by reflexivity.
  assert (H2 : reg !! "parse_number" = Some Demo.parse_number) by reflexivity.
  assert (H3 : reg !! "code_execution" = Some (Tools.code_execution MiniPy.interp))
    by reflexivity.
  clearbody reg. unfold Cases.mixed_turn.
  repeat (apply Forall_cons_2 || apply Forall_nil_2);
    unfold recoverable, tool_args_of;
    cbn [tc_arguments tc_name Cases.malformed Cases.unknown Cases.bad_number
         Cases.run_code].
  - reflexivity.
  - rewrite Hobj. simpl. by rewrite H1.
  - rewrite Hobj. simpl. rewrite H2. intros w e [= <-]. reflexivity.
  - rewrite Hcode. simpl. rewrite H3. intros w e H. simpl in H.
    destruct (code_execution_returns (VStr "x = 2") w) as [text Ht].
    rewrite Ht in H. discriminate.
Qed.

Lemma recoverable_requests_answered_witness :
  (dispatch Cases.mixed_turn (Cases.dispatching Cases.mixed_turn)).1 = Return ()
  ∧ answered Cases.mixed_turn (Cases.dispatching Cases.mixed_turn)
      (dispatch Cases.mixed_turn (Cases.dispatching Cases.mixed_turn)).2.
Proof.
  apply (AgentFacts.recoverable_requests_answered MiniJson.json_loads MiniPy.str
           Cases.mixed_turn (Cases.dispatching Cases.mixed_turn)).
  exact mixed_turn_recoverable.
Defined.

(** What the history holds after that turn. *)
Example mixed_turn_history :
  content <$> drop 3 (messages (dispatch Cases.mixed_turn (Cases.dispatching Cases.mixed_turn)).2)
  = [ Some "Error parsing tool arguments: Expecting value";
      Some "Error: Tool 'web_search' not found";
      Some "Error executing tool 'parse_number': invalid literal for int()";
      Some "" ].
Proof. vm_compute; reflexivity. Qed.

(** C4 (as stated) fails: a registered tool that raises [KeyError] ends
    the dispatch, and its request has no tool message. *)
Lemma unrecoverable_request_unanswered :
  (dispatch [Cases.lookup] (Cases.dispatching [Cases.lookup])).1
    = Raise (mk_exn KeyError "'symbol'")
  ∧ messages (dispatch [Cases.lookup] (Cases.dispatching [Cases.lookup])).2
    = messages (Cases.dispatching [Cases.lookup])
  ∧ ¬ answered [Cases.lookup] (Cases.dispatching [Cases.lookup])
        (dispatch [Cases.lookup] (Cases.dispatching [Cases.lookup])).2.
Proof.
  assert (H : messages (dispatch [Cases.lookup] (Cases.dispatching [Cases.lookup])).2
              = messages (Cases.dispatching [Cases.lookup]))
    by (vm_compute; reflexivity).
  split; [vm_compute; reflexivity|]. split; [exact H|].
  intros (new & H1 & _ & H3). rewrite H in H1.
  assert (new = []) as -> by (by eapply app_inv_head; rewrite app_nil_r).
  discriminate.
Qed.

Lemma refused_request_reply_witness :
  MiniJson.json_loads (tc_arguments Cases.malformed)
    = Raise (mk_exn JSONDecodeError "Expecting value")
  ∧ dispatch [Cases.malformed; Cases.run_code] (Cases.dispatching [])
    = dispatch [Cases.run_code]
        (append (reply Cases.malformed
                   "Error parsing tool arguments: Expecting value")
                (Cases.dispatching []))
  ∧ startswith "Error parsing tool arguments: Expecting value"
               "Error parsing tool arguments:" = true.
Proof.
  split; [vm_compute; reflexivity|].
  apply (proj1 (AgentFacts.refused_request_reply MiniJson.json_loads MiniPy.str
                  (Cases.dispatching []) Cases.malformed [Cases.run_code])
               (mk_exn JSONDecodeError "Expecting value")).
  - vm_compute; reflexivity.
  - reflexivity.
Defined.

(** C5 (as stated) fails: for an unregistered tool with a malformed
    payload the reply is the parse error, not "not found". *)
Lemma unknown_tool_with_malformed_payload :
  _tool_functions (Cases.dispatching []) !! tc_name Cases.unknown_malformed = None
  ∧ reply_content MiniJson.json_loads MiniPy.str (Cases.dispatching [])
      Cases.unknown_malformed "Error parsing tool arguments: Expecting value"
  ∧ ¬ reply_content MiniJson.json_loads MiniPy.str (Cases.dispatching [])
        Cases.unknown_malformed "Error: Tool 'web_search' not found".
Proof.
  assert (H : dispatch [Cases.unknown_malformed] (Cases.dispatching [])
              = (Return (),
                 append (reply Cases.unknown_malformed
                           "Error parsing tool arguments: Expecting value")
                        (Cases.dispatching [])))
    by reflexivity.
  split; [vm_compute; reflexivity|]. split.
  - eexists. split; [exact H|]. reflexivity.
  - intros (self' & H1 & H2). rewrite H in H1. injection H1 as <-.
    simpl in H2. discriminate.
Qed.

Lemma tool_fault_caught_or_propagated_witness :
  tool_args_of MiniJson.json_loads Cases.lookup = Return (VDict [])
  ∧ dispatch [Cases.lookup] (Cases.dispatching [Cases.lookup])
    = (Raise (mk_exn KeyError "'symbol'"), Cases.dispatching [Cases.lookup])
  ∧ query MiniJson.json_loads MiniPy.str (Demo.ask [Cases.lookup])
      "find the parser" 3 (Demo.agent None)
    = (Some (Raise (mk_exn KeyError "'symbol'")), Cases.dispatching [Cases.lookup]).
Proof.
  assert (Hv : tool_args_of MiniJson.json_loads Cases.lookup = Return (VDict []))
    by (vm_compute; reflexivity).
  pose proof (AgentFacts.tool_fault_caught_or_propagated
                MiniJson.json_loads MiniPy.str (Demo.ask [Cases.lookup])
                (Cases.dispatching [Cases.lookup]) Cases.lookup []
                Demo.symbol_lookup (VDict []) (mk_exn KeyError "'symbol'")
                (MiniPy.fresh_kernel 30) Hv eq_refl eq_refl)
    as (_ & Hp & _ & Hq).
  split; [exact Hv|]. split; [exact Hp|].
  exact (Hq 0 2 Cases.asked Cases.asked (mk_response None [Cases.lookup]) []
            (nsteps_O _ _) eq_refl eq_refl eq_refl).
Defined.

(** The same fault, when its class is one of those line 181 names, is
    turned into a reply. *)
Example ValueError_is_caught :
  dispatch [Cases.bad_number] (Cases.dispatching [Cases.bad_number])
  = (Return (),
     append (reply Cases.bad_number
               "Error executing tool 'parse_number': invalid literal for int()")
            (Cases.dispatching [Cases.bad_number])).
Proof. reflexivity. Qed.

(** Line 181 catches subclasses too: a [JSONDecodeError] raised by a tool
    is a [ValueError]; a [KeyError] is none of the four. *)
Example caught_classes :
  matches (mk_exn JSONDecodeError "") caught = true
  ∧ matches (mk_exn RecursionError "") caught = true
  ∧ matches (mk_exn KeyError "") caught = false
  ∧ matches (mk_exn KeyboardInterrupt "") caught = false.
Proof. vm_compute. done. Qed.

(** A payload that is JSON but not an object: for [code_execution] the
    [TypeError] of line 91 leaves the dispatcher and no tool message is
    appended; for any other registered tool the [TypeError] of the call
    is caught at line 181 and becomes the reply. *)
Example null_payload_for_code_execution :
  (dispatch [Cases.null_payload] (Cases.dispatching [Cases.null_payload])).1
    = Raise (mk_exn TypeError "argument of type 'NoneType' is not iterable")
  ∧ messages (dispatch [Cases.null_payload]
                (Cases.dispatching [Cases.null_payload])).2
    = messages (Cases.dispatching [Cases.null_payload])
  ∧ content <$> drop 3 (messages (dispatch [Cases.null_number]
                                    (Cases.dispatching [Cases.null_number])).2)
    = [Some ("Error executing tool 'parse_number': "
               ++ "argument after ** must be a mapping, not NoneType")].
Proof. repeat split; vm_compute; reflexivity. Qed.

(** Through the agent, code that does not parse comes back to the model
    as an empty tool result, not as an error: [code_execution] sees
    [success = True]. *)
Example syntax_defect_through_the_agent :
  content <$> drop 3 (messages (dispatch [Cases.bad_code]
                                  (Cases.dispatching [Cases.bad_code])).2)
  = [Some ""].
Proof. vm_compute; reflexivity. Qed.

End Runs.

(** * Further properties of the kernel *)

Module KernelMore.
Import Py Sys Interp Kernel.

Section WithInterpreter.
Variable I : interpreter.


(** X2. Code that does not parse is never run: after [execute] the
    kernel object (namespace included) and the console are what they
    were, and nothing has been captured. *)
Theorem unparsable_code_never_runs code st d :
  ast_parse I code = Some d →
  self (execute I (VStr code) st).2 = self st
  ∧ console (process (execute I (VStr code) st).2) = console (process st)
  ∧ ∃ r, (execute I (VStr code) st).1 = Return r ∧ output r = "".
Proof.
  intros H. rewrite KernelFacts.execute_unfold. cbv zeta.
  unfold exec_thread, thread_run, _safe_exec. rewrite H. simpl.
  split; [by destruct st as [[] ?]|]. split; [done|].
  eexists. split; [reflexivity|]. simpl.
  unfold getvalue. simpl. by rewrite lookup_app_r, Nat.sub_diag.
Qed.

(** [execute] never changes the bootstrap code, the timeout or the
    list of background units of the kernel, whatever the code does. *)
Lemma execute_keeps_configuration code st :
  imports (self (execute I code st).2) = imports (self st)
  ∧ timeout (self (execute I code st).2) = timeout (self st)
  ∧ background_threads (self (execute I code st).2)
      = background_threads (self st).
Proof.
  destruct code; try done.
  rewrite KernelFacts.execute_unfold. done.
Qed.

(** X3. When the bootstrap code fails during [reset] (it does not
    parse, or it raises while running), [reset] raises that exception
    to its caller, and the bindings the kernel had are gone: the
    namespace is what the bootstrap code made of an empty one before
    it failed. *)
Theorem reset_with_failing_bootstrap fuel st e :
  imports (self st) ≠ "" →
  snap_status (_safe_exec I (imports (self st)) fuel
                 (mk_memory ∅ (process st))) = Failed e →
  ∃ st', reset I fuel st = Some (Raise e, st')
         ∧ namespace (self st')
           = globals (snap_mem (_safe_exec I (imports (self st)) fuel
                                  (mk_memory ∅ (process st))))
         ∧ (∀ d, ast_parse I (imports (self st)) = Some d →
                 namespace (self st') = ∅ ∧ process st' = process st).
Proof.
  intros Hne Hs. unfold reset, truthy.
  rewrite bool_decide_eq_false_2 by done. simpl.
  unfold call, memory_of. simpl. rewrite Hs.
  eexists. split; [reflexivity|]. split; [reflexivity|].
  intros d Hd. unfold _safe_exec. rewrite Hd. done.
Qed.

(** X4. When the bootstrap code fails during construction, the
    constructor raises that exception: for code that does not parse,
    the [SyntaxError] with the text "Invalid Python syntax: ...". *)
Theorem construction_with_failing_bootstrap ns imports timeout fuel p :
  imports ≠ "" →
  (∀ e, snap_status (_safe_exec I imports fuel (mk_memory (default ∅ ns) p))
          = Failed e →
        ∃ st, __init__ I ns imports timeout fuel p = Some (Raise e, st))
  ∧ (∀ d, ast_parse I imports = Some d →
          ∃ st, __init__ I ns imports timeout fuel p
                = Some (Raise (mk_exn SyntaxError ("Invalid Python syntax: " ++ d)),
                        st)).
Proof.
  intros Hne.
  assert (H : ∀ e, snap_status (_safe_exec I imports fuel
                                  (mk_memory (default ∅ ns) p)) = Failed e →
                   ∃ st, __init__ I ns imports timeout fuel p = Some (Raise e, st)).
  { intros e Hs. unfold __init__, truthy.
    rewrite bool_decide_eq_false_2 by done. simpl.
    unfold call, memory_of. simpl.
    replace (match ns with Some d => d | None => ∅ end) with (default ∅ ns)
      by (by destruct ns).
    rewrite Hs. eauto. }
  split; [exact H|].
  intros d Hd. apply H. unfold _safe_exec. by rewrite Hd.
Qed.

(** With no bootstrap code, [reset] returns at once, empties the
    namespace and changes nothing else; a second [reset] changes
    nothing. *)
Lemma reset_without_bootstrap fuel st :
  imports (self st) = "" →
  reset I fuel st
    = Some (Return (),
            mk_state (mk_kernel ∅ "" (timeout (self st))
                                (background_threads (self st)))
                     (process st))
  ∧ ∀ st1, reset I fuel st = Some (Return (), st1) →
           reset I fuel st1 = Some (Return (), st1).
Proof.
  intros H. unfold reset. rewrite H. simpl. split; [done|].
  by intros st1 [= <-].
Qed.

(** X5. Code that ends with an exception (an instance of [Exception])
    within the grace period of [execute_background]: the text
    "Background execution error: <str(e)>" is printed to the stream
    [sys.stdout] is bound to, the unit is not added to
    [background_threads] (the list is the earlier entries that are
    alive, in their order), and the acknowledgement is returned all
    the same. *)
Theorem background_failure_is_printed code st e :
  snap_status (_safe_exec I code grace_period (memory_of st)) = Failed e →
  matches e [Exception] = true →
  let m := snap_mem (_safe_exec I code grace_period (memory_of st)) in
  execute_background I code st
    = (Return (mk_result true "Code started in background thread" None),
       mk_state (mk_kernel (globals m) (imports (self st)) (timeout (self st))
                   (filter (λ t, alive t = true) (background_threads (self st))))
                (print ("Background execution error: " ++ exn_str e) (proc m))).
Proof.
  intros Hs He m. unfold execute_background, thread_run, run_code.
  fold m. rewrite Hs, He. simpl.
  rewrite filter_app. simpl.
  rewrite filter_cons_False, filter_nil, app_nil_r by (simpl; done).
  reflexivity.
Qed.

(** X6. After [execute_background] every unit in [background_threads]
    is one that was alive when checked; the unit just started is the
    last entry when it is still running after the grace period, and is
    not added when it has ended by then. *)
Theorem background_threads_tracks_running_units code st :
  let s := thread_run (run_code I code) grace_period (memory_of st) in
  let threads := background_threads (self (execute_background I code st).2) in
  Forall (λ t, alive t = true) threads
  ∧ (is_alive s = true → last threads = Some (mk_thread code true))
  ∧ (is_alive s = false →
     (length threads ≤ length (background_threads (self st)))%nat).
Proof.
  intros s threads. subst threads. unfold execute_background. fold s. simpl.
  split; [|split].
  - apply Forall_forall. intros t Ht. by apply list_elem_of_filter in Ht as [? _].
  - intros H. rewrite H, filter_app. simpl.
    rewrite filter_cons_True, filter_nil by done. by rewrite last_snoc.
  - intros H. rewrite H, filter_app. simpl.
    rewrite filter_cons_False, filter_nil, app_nil_r by (simpl; done).
    apply length_filter.
Qed.

End WithInterpreter.

End KernelMore.

(** * Further properties of the agent *)

Module AgentMore.
Import Py Agent AgentSpec AgentSpec2.

Lemma dict_get_set_eq {A} k (v : A) d : dict_get k (dict_set k v d) = Some v.
Proof.
  induction d as [|[k' v'] d IH]; simpl.
  - by rewrite decide_True.
  - destruct (decide (k = k')); simpl.
    + by rewrite decide_True.
    + by rewrite decide_False.
Qed.

Lemma dict_get_set_ne {A} k k' (v : A) d :
  k ≠ k' → dict_get k' (dict_set k v d) = dict_get k' d.
Proof.
  intros Hne. induction d as [|[k0 v0] d IH]; simpl.
  - by rewrite decide_False.
  - destruct (decide (k = k0)) as [->|]; simpl.
    + by rewrite !decide_False.
    + destruct (decide (k' = k0)); [done|]. exact IH.
Qed.

(** *** The registry *)

Section Registry.
Context {W : Type}.

Lemma registers_dec (t : ToolSpec W) n :
  (∃ f, registers t n f) ∨ (∀ f, ¬ registers t n f).
Proof.
  unfold registers.
  destruct (decide (tool_type t = "function"));
    [|right; intros f (? & ? & ? & ?); congruence].
  destruct (fn_name t) as [m|] eqn:En;
    [|right; intros f (? & ? & ? & ?); congruence].
  destruct (decide (m = n)) as [->|];
    [|right; intros f (? & ? & ? & ?); congruence].
  destruct (decide (n = ""));
    [right; intros f (? & ? & ? & ?); congruence|].
  destruct (fn_callable t) as [f|];
    [left; eauto|right; intros f (? & ? & ? & ?); congruence].
Qed.

Lemma register_registers reg (t : ToolSpec W) n f :
  registers t n f → register reg t !! n = Some f.
Proof.
  intros (Ht & Hn & Hne & Hf). unfold register, truthy.
  rewrite decide_True, Hn, Hf by done.
  rewrite bool_decide_eq_false_2 by done. simpl. apply lookup_insert_eq.
Qed.

Lemma register_other reg (t : ToolSpec W) n :
  (∀ f, ¬ registers t n f) → register reg t !! n = reg !! n.
Proof.
  intros H. unfold register, truthy.
  destruct (decide (tool_type t = "function")); [|done].
  destruct (fn_name t) as [m|] eqn:En; [|done].
  destruct (fn_callable t) as [f|] eqn:Ef; [|done].
  case_bool_decide as Hm; simpl; [done|].
  destruct (decide (m = n)) as [->|]; [|by rewrite lookup_insert_ne].
  by destruct (H f).
Qed.

Lemma registry_snoc (tools : list (ToolSpec W)) t :
  fold_left register (tools ++ [t])%list ∅ = register (fold_left register tools ∅) t.
Proof. by rewrite fold_left_app. Qed.

(** X7. A name is in the registry exactly when some entry of [tools]
    has type "function" and carries that name, non-empty, together
    with a callable. Entries of another type, without a name or
    without a callable are skipped. *)
Theorem registry_membership sp (tools : list (ToolSpec W)) ms k n :
  is_Some (_tool_functions (__init__ sp tools ms k) !! n)
  ↔ ∃ t f, t ∈ tools ∧ registers t n f.
Proof.
  simpl. induction tools as [|t tools IH] using rev_ind.
  { simpl. rewrite lookup_empty. split; [by intros [? ?]|].
    intros (t & f & Ht & _). by apply elem_of_nil in Ht. }
  rewrite registry_snoc.
  destruct (registers_dec t n) as [[f Hf]|Hno].
  - rewrite (register_registers _ _ _ _ Hf). split; [|by eauto].
    intros _. exists t, f. split; [|done]. apply elem_of_app. right. by left.
  - rewrite (register_other _ _ _ Hno), IH. split.
    + intros (t' & f & Ht & Hr). exists t', f. split; [|done].
      apply elem_of_app. by left.
    + intros (t' & f & Ht & Hr). apply elem_of_app in Ht as [Ht|Ht].
      * by eauto.
      * apply list_elem_of_singleton in Ht as ->. by destruct (Hno f).
Qed.

(** X8. When several entries of [tools] carry the same name, the
    callable of the last of them is the one the registry holds. *)
Theorem registry_last_wins sp (pre post : list (ToolSpec W)) t ms k n f :
  registers t n f →
  Forall (λ t', ∀ f', ¬ registers t' n f') post →
  _tool_functions (__init__ sp (pre ++ t :: post)%list ms k) !! n = Some f.
Proof.
  intros Hr Hpost. simpl. rewrite fold_left_app. simpl.
  assert (Hstep : ∀ reg0, reg0 !! n = Some f →
                          fold_left register post reg0 !! n = Some f).
  { induction Hpost as [|t0 post Ht0 _ IH0]; intros reg0 H0; [done|].
    simpl. apply IH0. by rewrite register_other. }
  apply Hstep. by apply register_registers.
Qed.

End Registry.

Section WithEnvironment.
Context {W : Type}.
Variable json_loads : string → except value.
Variable repr : value → string.
Variable completion : option (list CleanTool) → list Message → except Response.

Local Abbreviation execute_tool_call := (_execute_tool_call (W:=W) json_loads).
Local Abbreviation process_tool_calls := (_process_tool_calls (W:=W) json_loads repr).
Local Abbreviation loop := (conversation_loop (W:=W) json_loads repr completion).
Local Abbreviation ask := (query (W:=W) json_loads repr completion).
Local Abbreviation args_of := (tool_args_of json_loads).
Local Abbreviation one_turn := (turn (W:=W) json_loads repr completion).

(** *** What the completion service is told *)

Lemma clean_tools_spec (self : Agent W) :
  clean_tools self
    = advertised <$> filter (λ t, tool_type t = "function") (tools self).
Proof.
  unfold clean_tools. generalize (tools self). intros ts.
  induction ts as [|t ts IH]; [done|].
  csimpl. destruct (decide (tool_type t = "function")).
  - rewrite filter_cons_True by done. csimpl. by rewrite IH.
  - rewrite filter_cons_False by done. exact IH.
Qed.

(** X9. Every name in the registry is among the names sent to the
    completion service. *)
Theorem registered_tools_are_advertised sp (tools : list (ToolSpec W)) ms k n :
  is_Some (_tool_functions (__init__ sp tools ms k) !! n) →
  Some n ∈ ct_name <$> clean_tools (__init__ sp tools ms k).
Proof.
  intros H. apply registry_membership in H as (t & f & Ht & Hty & Hn & _).
  rewrite clean_tools_spec. simpl.
  apply list_elem_of_fmap. exists (advertised t). split; [by rewrite <- Hn|].
  apply list_elem_of_fmap. exists t. split; [done|].
  by apply list_elem_of_filter.
Qed.

(** X10. The tools argument of a completion is never an empty list: it
    is [None] exactly when no entry of [tools] has type "function",
    and otherwise holds one projection per such entry, in order. *)
Theorem tools_argument (self : Agent W) :
  ∃ arg, _make_api_call completion self = completion arg (messages self)
         ∧ arg ≠ Some []
         ∧ (arg = None ↔ Forall (λ t, tool_type t ≠ "function") (tools self))
         ∧ (∀ cts, arg = Some cts →
              cts = advertised <$> filter (λ t, tool_type t = "function")
                                          (tools self)).
Proof.
  unfold _make_api_call. rewrite clean_tools_spec.
  destruct (filter _ (tools self)) as [|t ts] eqn:E; simpl.
  - exists None. repeat split; try done.
    intros _. apply Forall_forall. intros t Ht Hty.
    assert (t ∈ filter (λ t, tool_type t = "function") (tools self))
      by (by apply list_elem_of_filter).
    rewrite E in H. by apply elem_of_nil in H.
  - eexists. split; [reflexivity|]. repeat split; try done.
    + intros H. rewrite Forall_forall in H.
      assert (Ht : t ∈ filter (λ t, tool_type t = "function") (tools self))
        by (rewrite E; by left).
      apply list_elem_of_filter in Ht as [Hty Hin]. by destruct (H t Hin).
    + by intros cts [= <-].
Qed.

(** *** The system message *)

(** X11. [_set_system_prompt] applied again, with whatever prompt,
    changes nothing: a leading system message is never replaced. *)
Theorem set_system_prompt_idempotent p q (self : Agent W) :
  _set_system_prompt q (_set_system_prompt p self) = _set_system_prompt p self.
Proof.
  unfold _set_system_prompt. destruct (messages self) as [|m ms] eqn:E.
  - simpl. rewrite E. reflexivity.
  - destruct (decide (role m ≠ "system")) as [Hne|Heq].
    + simpl. reflexivity.
    + rewrite E. by rewrite decide_False by done.
Qed.

(** *** The loop *)

Lemma loop_appends fuel (self : Agent W) :
  ∃ new, messages (loop fuel self).2 = (messages self ++ new)%list
         ∧ Forall (λ m, role m = "assistant" ∨ role m = "tool") new
         ∧ _tool_functions (loop fuel self).2 = _tool_functions self
         ∧ tools (loop fuel self).2 = tools self
         ∧ system_prompt (loop fuel self).2 = system_prompt self.
Proof.
  revert self. induction fuel as [|fuel IH]; intros self.
  { exists []. simpl. by rewrite app_nil_r. }
  rewrite AgentFacts.loop_S.
  destruct (_make_api_call completion self) as [response|e].
  2:{ exists []. simpl. by rewrite app_nil_r. }
  cbv zeta. destruct (decide (resp_tool_calls response = [])) as [Ec|Ec].
  { exists [assistant_message response]. simpl.
    split; [done|]. split; [|done]. constructor; [by left|done]. }
  set (self1 := append (assistant_message response) self).
  destruct (AgentFacts.process_tool_calls_grows json_loads repr
              (resp_tool_calls response) self1)
    as (n & new & H1 & H2 & _ & _ & H5 & H6 & H7).
  assert (Htool : Forall (λ m, role m = "assistant" ∨ role m = "tool") new).
  { eapply Forall_impl; [exact H2|]. by right. }
  destruct (process_tool_calls (resp_tool_calls response) self1)
    as [[[]|e] self2]; simpl in *.
  - destruct (IH self2) as (new' & H1' & H2' & H3' & H4' & H5').
    exists (assistant_message response :: new ++ new')%list.
    rewrite H1', H1, H3', H4', H5', H5, H6, H7. repeat split.
    + by rewrite <- !app_assoc.
    + constructor; [by left|]. by apply Forall_app.
  - exists (assistant_message response :: new).
    rewrite H1, H5, H6, H7. repeat split.
    + by rewrite <- !app_assoc.
    + constructor; [by left|done].
Qed.

Lemma loop_result fuel (self self' : Agent W) r :
  loop fuel self = (Some (Return r), self') →
  qr_tool_calls r = None
  ∧ ∃ response, last (messages self') = Some (assistant_message response)
                ∧ resp_tool_calls response = []
                ∧ qr_content r = default "" (resp_content response).
Proof.
  revert self. induction fuel as [|fuel IH]; intros self; [done|].
  rewrite AgentFacts.loop_S.
  destruct (_make_api_call completion self) as [response|e]; [|done].
  cbv zeta. destruct (decide (resp_tool_calls response = [])) as [Ec|Ec].
  - intros [= <- <-]. split; [done|]. exists response.
    simpl. by rewrite last_snoc.
  - destruct (process_tool_calls _ _) as [[[]|e] self2]; [|done].
    apply IH.
Qed.

(** X12. When [query] returns, the [tool_calls] of what it returns is
    [None], its [content] is that of the last assistant message (the
    empty string when that has none), and that message, which carries
    no tool request, is the last of the history. *)
Theorem query_result_shape prompt fuel (self self' : Agent W) r :
  ask prompt fuel self = (Some (Return r), self') →
  qr_tool_calls r = None
  ∧ ∃ response, last (messages self') = Some (assistant_message response)
                ∧ resp_tool_calls response = []
                ∧ qr_content r = default "" (resp_content response).
Proof. unfold query. apply loop_result. Qed.

(** X13. The loop of [query] ends at the first completion that carries
    no tool request: after [n] completed rounds and such a completion,
    [n + 1] completions are enough for it to return, with the
    assistant message appended. *)
Theorem loop_returns_after_turns n fuel (s0 sb : Agent W) response :
  nsteps one_turn n s0 sb →
  _make_api_call completion sb = Return response →
  resp_tool_calls response = [] →
  loop (n + S fuel) s0
    = (Some (Return (mk_query_result (default "" (resp_content response)) None)),
       append (assistant_message response) sb).
Proof.
  intros Hn Ha Hc.
  rewrite (AgentFacts.loop_turns _ _ _ _ _ _ _ Hn), AgentFacts.loop_S, Ha.
  cbv zeta. by rewrite decide_True.
Qed.

(** X14. A failure of the completion service is not caught: after [n]
    completed rounds, an exception raised by the next completion is
    raised by the loop of [query], and the agent is as it was when the
    completion was requested. *)
Theorem completion_failure_ends_query n fuel (s0 sb : Agent W) e :
  nsteps one_turn n s0 sb →
  _make_api_call completion sb = Raise e →
  loop (n + S fuel) s0 = (Some (Raise e), sb).
Proof.
  intros Hn Ha.
  by rewrite (AgentFacts.loop_turns _ _ _ _ _ _ _ Hn), AgentFacts.loop_S, Ha.
Qed.

(** X15. [query] never removes, changes or reorders the messages the
    history held: it puts a system message in front when the history
    did not start with one, appends the prompt as a user message, and
    after that appends assistant and tool messages only. *)
Theorem query_keeps_history prompt fuel (self : Agent W) :
  ∃ new,
    messages (ask prompt fuel self).2
      = ((if leads_with_system (messages self) then []
          else [system_message (system_prompt self)])
           ++ messages self ++ user_message prompt :: new)%list
    ∧ Forall (λ m, role m = "assistant" ∨ role m = "tool") new.
Proof.
  unfold query.
  destruct (loop_appends fuel
              (append (user_message prompt)
                 (_set_system_prompt (system_prompt self) self)))
    as (new & H1 & H2 & _).
  exists new. split; [|done]. cbv zeta. rewrite H1. simpl.
  rewrite <- app_assoc. simpl. rewrite (app_assoc _ (messages self)). f_equal.
  unfold _set_system_prompt. destruct (messages self) as [|m ms] eqn:E; simpl.
  - by rewrite E.
  - destruct (decide (role m ≠ "system")) as [Hne|Heq]; simpl.
    + by rewrite bool_decide_eq_false_2.
    + apply dec_stable in Heq. by rewrite bool_decide_eq_true_2, E.
Qed.

(** X16. The registry, the tool list and the configured system prompt
    are read-only: [query] leaves them as they were, whatever the
    completions and the tools do. *)
Theorem query_keeps_registry prompt fuel (self : Agent W) :
  _tool_functions (ask prompt fuel self).2 = _tool_functions self
  ∧ tools (ask prompt fuel self).2 = tools self
  ∧ system_prompt (ask prompt fuel self).2 = system_prompt self.
Proof.
  unfold query.
  destruct (loop_appends fuel
              (append (user_message prompt)
                 (_set_system_prompt (system_prompt self) self)))
    as (new & _ & _ & H3 & H4 & H5).
  cbv zeta. rewrite H3, H4, H5. simpl.
  unfold _set_system_prompt. destruct (messages self) as [|m ms]; [done|].
  by destruct (decide _).
Qed.

(** *** Arguments *)

(** X17. For a [code_execution] request with an object payload, the
    callable is called with the payload's keys and with [kernel] bound
    to the live kernel, whatever the payload said about [kernel]; no
    other key is touched. *)
Theorem code_execution_gets_the_kernel (self : Agent W) tc d f :
  tc_name tc = "code_execution" →
  json_loads (tc_arguments tc) = Return (VDict d) →
  _tool_functions self !! tc_name tc = Some f →
  let kwargs := dict_set "kernel" VKernel d in
  dict_get "kernel" kwargs = Some VKernel
  ∧ (∀ k, k ≠ "kernel" → dict_get k kwargs = dict_get k d)
  ∧ ∀ r w, f kwargs (env self) = (r, w) →
           (execute_tool_call self tc).2 = set_env w self
           ∧ ∀ out, r = Return out →
                    (execute_tool_call self tc).1
                      = Return (mk_tool_call_response (tc_id tc) (tc_name tc)
                                  (VDict kwargs) out).
Proof.
  intros Hn Hj Hf kwargs.
  split; [apply dict_get_set_eq|]. split.
  { intros k Hk. by apply dict_get_set_ne. }
  intros r w Hc.
  assert (Hv : args_of tc = Return (VDict kwargs)).
  { unfold tool_args_of. rewrite Hj. simpl. by rewrite decide_True. }
  rewrite (AgentFacts.execute_tool_call_invoked _ self tc _ f r w Hv Hf Hc).
  split; [done|]. by intros out ->.
Qed.

(** X18. For any other tool the payload is passed as parsed, and a
    payload that is JSON but not an object never reaches the callable:
    the request is answered with "Error executing tool '<name>': ..."
    and the agent is otherwise unchanged. *)
Theorem non_object_payload_is_refused (self : Agent W) tc rest v f :
  tc_name tc ≠ "code_execution" →
  json_loads (tc_arguments tc) = Return v →
  is_dict v = false →
  _tool_functions self !! tc_name tc = Some f →
  ∃ detail,
    process_tool_calls (tc :: rest) self
      = process_tool_calls rest
          (append (reply tc ("Error executing tool '" ++ tc_name tc ++ "': "
                               ++ detail))
                  self).
Proof.
  intros Hn Hj Hd Hf.
  assert (Hv : args_of tc = Return v).
  { unfold tool_args_of. rewrite Hj. simpl. by rewrite decide_False. }
  assert (Hc : ∃ detail, call_with_kwargs f v (env self)
                         = (Raise (mk_exn TypeError detail), env self)).
  { destruct v; try done; simpl; eauto. }
  destruct Hc as [detail Hc]. exists detail.
  rewrite (AgentFacts.process_tool_calls_cons _ _ _ _ _ _ _
             (AgentFacts.show_arguments_parsed _ _ _ Hv)
             (AgentFacts.execute_tool_call_invoked _ self tc _ f _ _ Hv Hf Hc)).
  by destruct self.
Qed.

(** X19. A [code_execution] request whose payload is JSON but not an
    object is not answered: a [TypeError] leaves the dispatcher, the
    history gets no tool message for it, and the requests after it are
    not dispatched. *)
Theorem code_execution_requires_object (self : Agent W) tc rest v :
  tc_name tc = "code_execution" →
  json_loads (tc_arguments tc) = Return v →
  is_dict v = false →
  ∃ e, process_tool_calls (tc :: rest) self = (Raise e, self)
       ∧ exn_class e = TypeError.
Proof.
  intros Hn Hj Hd. simpl.
  unfold show_arguments, _execute_tool_call. rewrite Hj, Hn. simpl.
  destruct v; try done; simpl; eauto.
  - destruct (contains s "code"); simpl; eauto.
  - destruct (existsb _ items); simpl; eauto.
Qed.

End WithEnvironment.

End AgentMore.

(** * The code-execution tool *)

Module ToolsMore.
Import Py Sys Interp Kernel.

Section WithInterpreter.
Variable I : interpreter.



(** X22. A [code_execution] request whose payload is an object without
    the key [code] is answered with "Error executing tool
    'code_execution': ...": the [TypeError] of the call is caught, and
    nothing is executed. *)
Theorem code_execution_without_code
    (json_loads : string → except value) (repr : value → string)
    (self : Agent.Agent Kernel.state) tc rest d :
  Agent.tc_name tc = "code_execution" →
  json_loads (Agent.tc_arguments tc) = Return (VDict d) →
  dict_get "code" d = None →
  Agent._tool_functions self !! Agent.tc_name tc = Some (Tools.code_execution I) →
  ∃ detail,
    Agent._process_tool_calls json_loads repr (tc :: rest) self
      = Agent._process_tool_calls json_loads repr rest
          (Agent.append
             (AgentSpec.reply tc ("Error executing tool 'code_execution': "
                                    ++ detail))
             self).
Proof.
  intros Hn Hj Hd Hf.
  assert (Hv : AgentSpec.tool_args_of json_loads tc
               = Return (VDict (dict_set "kernel" VKernel d))).
  { unfold AgentSpec.tool_args_of. rewrite Hj. simpl. by rewrite decide_True. }
  assert (Hc : ∃ detail,
             Agent.call_with_kwargs (Tools.code_execution I)
               (VDict (dict_set "kernel" VKernel d)) (Agent.env self)
             = (Raise (mk_exn TypeError detail), Agent.env self)).
  { simpl. unfold Tools.code_execution.
    rewrite AgentMore.dict_get_set_ne, Hd by done. eauto. }
  destruct Hc as [detail Hc]. exists detail.
  rewrite (AgentFacts.process_tool_calls_cons _ _ _ _ _ _ _
             (AgentFacts.show_arguments_parsed _ _ _ Hv)
             (AgentFacts.execute_tool_call_invoked _ self tc _ _ _ _ Hv Hf Hc)).
  simpl. rewrite Hn. by destruct self.
Qed.

End WithInterpreter.

End ToolsMore.

(** * The repository singleton and the search function *)

Module RepoFacts.
Import Py Repo.

Section WithRepository.
Context {Repository : Type}.
Variable search : Repository → string → Z → except value.

Lemma new_well_formed (s : classes Repository) :
  well_formed s → well_formed (__new__ s).2 ∧ (__new__ s).1 < length (objects (__new__ s).2)
                  ∧ _instance (__new__ s).2 = Some (__new__ s).1.
Proof.
  unfold well_formed, __new__. destruct (_instance s) as [i|] eqn:E; simpl.
  - rewrite E. done.
  - rewrite length_app. simpl. intros _. repeat split; lia.
Qed.

Lemma get_repository_after_reset (s : classes Repository) :
  (get_repository (reset s)).1 = Raise not_initialized.
Proof.
  unfold get_repository, reset, __new__, get_repository_of. simpl.
  by rewrite lookup_app_r, Nat.sub_diag.
Qed.

Lemma install_get (s : classes Repository) r :
  well_formed s →
  get_repository (install r s) = (Return r, install r s)
  ∧ well_formed (install r s).
Proof.
  intros Hwf. destruct (new_well_formed s Hwf) as (Hwf1 & Hlt & Hi).
  unfold install. destruct (__new__ s) as [i s1] eqn:En. simpl in *.
  unfold get_repository, __new__.
  change (_instance (initialize i r s1)) with (_instance s1). rewrite Hi.
  unfold get_repository_of, initialize. simpl.
  rewrite list_lookup_insert_eq by done. split; [done|].
  unfold well_formed. simpl. by rewrite Hi, length_insert.
Qed.

(** X23. Before any [initialize], and again after every [reset], the
    accessor [get_repository] raises [RuntimeError] with the text
    "Repository not initialized. Call initialize() first.". *)
Theorem get_repository_uninitialised (s : classes Repository) :
  (get_repository loaded).1 = Raise (A:=Repository) not_initialized
  ∧ (get_repository (reset s)).1 = Raise not_initialized.
Proof. split; [reflexivity|]. apply get_repository_after_reset. Qed.

(** X24. After [RepositorySingleton().initialize(r)] the accessor
    returns [r]; a later [initialize] replaces it. *)
Theorem initialize_then_get (s : classes Repository) r :
  well_formed s →
  get_repository (install r s) = (Return r, install r s)
  ∧ well_formed (install r s)
  ∧ ∀ r', get_repository (install r' (install r s))
          = (Return r', install r' (install r s)).
Proof.
  intros Hwf. destruct (install_get s r Hwf) as [H1 H2].
  split; [done|]. split; [done|].
  intros r'. by apply install_get.
Qed.

(** X25. [reset] only forgets which instance is the singleton: it
    changes no instance, so an instance obtained before the [reset]
    still answers with its repository, while the accessor, which
    makes a new instance, does not. *)
Theorem reset_keeps_old_instance (s : classes Repository) r :
  well_formed s →
  let old := (__new__ s).1 in
  let s1 := reset (install r s) in
  get_repository_of old s1 = Return r
  ∧ (get_repository s1).1 = Raise not_initialized
  ∧ (__new__ s1).1 ≠ old.
Proof.
  intros Hwf old s1.
  destruct (new_well_formed s Hwf) as (Hwf1 & Hlt & Hi).
  subst old s1. unfold install.
  destruct (__new__ s) as [i s0] eqn:En. simpl in *.
  unfold reset, initialize, get_repository, __new__, get_repository_of. simpl.
  rewrite list_lookup_insert_eq by done.
  rewrite lookup_app_r, Nat.sub_diag by done.
  rewrite length_insert. repeat split; try done. lia.
Qed.

(** X26. [code_search] raises the accessor's [RuntimeError] when no
    repository is installed, without searching; with a repository
    installed it answers what [repository.search(query, top_k)]
    answers, with [top_k = 5] when it is left out. *)
Theorem code_search_uses_the_repository (s : classes Repository) r query top_k :
  well_formed s →
  (code_search search query top_k (reset s)).1 = Raise not_initialized
  ∧ (code_search search query top_k (install r s)).1
    = search r query (match top_k with Some k => k | None => 5%Z end).
Proof.
  intros Hwf. unfold code_search. split.
  - pose proof (get_repository_after_reset s) as H.
    destruct (get_repository (reset s)) as [x s1]. simpl in *. by subst x.
  - destruct (install_get s r Hwf) as [H _].
    rewrite H. simpl. by destruct top_k.
Qed.

End WithRepository.

End RepoFacts.

(** * [main.py] *)

Module MainFacts.
Import Py Interp Agent Main.

Section WithEnvironment.
Variable I : interpreter.
Variable json_loads : string → except value.
Variable repr : value → string.
Variable completion : option (list CleanTool) → list Message → except Response.
Variable FUNCTIONS : gmap string value.
Variable system_prompt : string.

(** X27. The prompt loop ends at the first line "exit": the lines
    after it are never read, and no query is made for them. *)
Theorem prompt_loop_stops_at_exit pre post fuel agent :
  prompt_loop json_loads repr completion (pre ++ "exit" :: post)%list fuel agent
  = prompt_loop json_loads repr completion (pre ++ ["exit"])%list fuel agent.
Proof.
  revert agent. induction pre as [|line pre IH]; intros agent; [done|].
  simpl. destruct (decide (line = "exit")); [done|].
  destruct (query _ _ _ _ _ _) as [[[r|e]|] agent']; [|done..].
  apply IH.
Qed.

(** Without an API key (unset or empty) [initialize_agent] prints
    the two lines and exits with status 1, constructing nothing; with
    one, it returns an agent with an empty history whose registry
    holds [code_execution] and nothing else, over a kernel with the
    namespace [FUNCTIONS], no bootstrap code and a timeout of 30. *)
Lemma initialize_agent_requires_key api_key p :
  ((api_key = None ∨ api_key = Some "") →
   ∃ p', initialize_agent I FUNCTIONS system_prompt api_key p
         = Some (Raise (mk_exn SystemExit "1"), p'))
  ∧ (∀ key, api_key = Some key → key ≠ "" →
       ∃ agent, initialize_agent I FUNCTIONS system_prompt api_key p
                = Some (Return agent, p)
                ∧ messages agent = []
                ∧ (∀ n, is_Some (_tool_functions agent !! n) ↔ n = "code_execution")
                ∧ Kernel.namespace (Kernel.self (env agent)) = FUNCTIONS
                ∧ Kernel.imports (Kernel.self (env agent)) = ""
                ∧ Kernel.timeout (Kernel.self (env agent)) = 30%Z).
Proof.
  split.
  - intros [-> | ->]; eexists; reflexivity.
  - intros key -> Hne. unfold initialize_agent, truthy. simpl.
    rewrite bool_decide_eq_false_2 by done. simpl.
    eexists. split; [reflexivity|]. simpl. repeat split; try done.
    + intros [f Hf]. unfold register in Hf. simpl in Hf.
      destruct (decide (n = "code_execution")) as [|Hn]; [done|].
      by rewrite lookup_insert_ne, lookup_empty in Hf.
    + intros ->. unfold register. simpl. by rewrite lookup_insert_eq.
Qed.

End WithEnvironment.

End MainFacts.

(** * More concrete runs *)

Module Runs2.
Import Py Sys Interp Kernel Agent AgentSpec AgentSpec2.

Local Abbreviation dispatch := (_process_tool_calls MiniJson.json_loads MiniPy.str).
Local Abbreviation kwargs0 := [("code", VStr "x = 2"); ("kernel", VKernel)].

(** *** The kernel *)

Lemma unparsable_code_never_runs_witness :
  ast_parse MiniPy.interp "x = (" = Some "invalid syntax"
  ∧ self (execute MiniPy.interp (VStr "x = (") Cases2.bad_bootstrap).2
    = self Cases2.bad_bootstrap
  ∧ console (process (execute MiniPy.interp (VStr "x = (") Cases2.bad_bootstrap).2)
    = console (process Cases2.bad_bootstrap)
  ∧ ∃ r, (execute MiniPy.interp (VStr "x = (") Cases2.bad_bootstrap).1 = Return r
         ∧ output r = "".
Proof.
  split; [vm_compute; reflexivity|].
  apply (KernelMore.unparsable_code_never_runs MiniPy.interp "x = ("
           Cases2.bad_bootstrap "invalid syntax").
  vm_compute; reflexivity.
Defined.

(** The kernel of this case is the one construction gives. *)
Example bad_bootstrap_constructed :
  Kernel.__init__ MiniPy.interp (Some {["y" := VInt 1]}) "print(y)" 30 7
    MiniPy.fresh_process
  = Some (Return (), Cases2.bad_bootstrap).
Proof. vm_compute; reflexivity. Qed.

Lemma reset_with_failing_bootstrap_witness :
  imports (self Cases2.bad_bootstrap) ≠ ""
  ∧ ∃ st', reset MiniPy.interp 7 Cases2.bad_bootstrap
           = Some (Raise (mk_exn NameError "name 'y' is not defined"), st')
           ∧ namespace (self st')
             = globals (snap_mem (_safe_exec MiniPy.interp
                                    (imports (self Cases2.bad_bootstrap)) 7
                                    (mk_memory ∅ (process Cases2.bad_bootstrap))))
           ∧ (∀ d, ast_parse MiniPy.interp (imports (self Cases2.bad_bootstrap))
                   = Some d →
                   namespace (self st') = ∅
                   ∧ process st' = process Cases2.bad_bootstrap).
Proof.
  assert (H1 : imports (self Cases2.bad_bootstrap) ≠ "") by done.
  split; [exact H1|].
  apply (KernelMore.reset_with_failing_bootstrap MiniPy.interp 7
           Cases2.bad_bootstrap (mk_exn NameError "name 'y' is not defined") H1).
  vm_compute; reflexivity.
Defined.

Lemma construction_with_failing_bootstrap_witness :
  "import (" ≠ ""
  ∧ ∃ st, Kernel.__init__ MiniPy.interp None "import (" 30 7 MiniPy.fresh_process
          = Some (Raise (mk_exn SyntaxError
                           ("Invalid Python syntax: " ++ "invalid syntax")), st).
Proof.
  assert (H1 : "import (" ≠ "") by done.
  split; [exact H1|].
  apply (proj2 (KernelMore.construction_with_failing_bootstrap MiniPy.interp None
                  "import (" 30 7 MiniPy.fresh_process H1) "invalid syntax").
  vm_compute; reflexivity.
Defined.

Lemma reset_without_bootstrap_witness :
  imports (self (MiniPy.fresh_kernel 30)) = ""
  ∧ reset MiniPy.interp 0 (MiniPy.fresh_kernel 30)
    = Some (Return (),
            mk_state (mk_kernel ∅ "" (timeout (self (MiniPy.fresh_kernel 30)))
                        (background_threads (self (MiniPy.fresh_kernel 30))))
                     (process (MiniPy.fresh_kernel 30)))
  ∧ ∀ st1, reset MiniPy.interp 0 (MiniPy.fresh_kernel 30) = Some (Return (), st1) →
           reset MiniPy.interp 0 st1 = Some (Return (), st1).
Proof.
  split; [reflexivity|].
  exact (KernelMore.reset_without_bootstrap MiniPy.interp 0
           (MiniPy.fresh_kernel 30) eq_refl).
Defined.

Lemma background_failure_is_printed_witness :
  snap_status (_safe_exec MiniPy.interp "print(y)" grace_period
                 (memory_of (MiniPy.fresh_kernel 30)))
    = Failed (mk_exn NameError "name 'y' is not defined")
  ∧ execute_background MiniPy.interp "print(y)" (MiniPy.fresh_kernel 30)
    = (Return (mk_result true "Code started in background thread" None),
       mk_state (mk_kernel ∅ "" 30 [])
         (mk_process Console
            ("Background execution error: name 'y' is not defined" ++ newline)
            "" [])).
Proof.
  assert (H : snap_status (_safe_exec MiniPy.interp "print(y)" grace_period
                             (memory_of (MiniPy.fresh_kernel 30)))
              = Failed (mk_exn NameError "name 'y' is not defined"))
    by (vm_compute; reflexivity).
  split; [exact H|].
  exact (KernelMore.background_failure_is_printed MiniPy.interp "print(y)"
           (MiniPy.fresh_kernel 30) _ H eq_refl).
Defined.

(** What that leaves on the console. *)
Example background_failure_on_console :
  console (process (execute_background MiniPy.interp "print(y)"
                      (MiniPy.fresh_kernel 30)).2)
  = "Background execution error: name 'y' is not defined" ++ newline.
Proof. vm_compute; reflexivity. Qed.

(** A unit that does not end is tracked; its output goes to the console,
    not into a result. *)
Example background_loop_is_tracked :
  execute_background MiniPy.interp Cases.print_then_loop (MiniPy.fresh_kernel 30)
  = (Return (mk_result true "Code started in background thread" None),
     mk_state (mk_kernel {["x" := VInt 2]} "" 30
                 [mk_thread Cases.print_then_loop true])
       (mk_process Console ("2" ++ newline) "" [])).
Proof. vm_compute; reflexivity. Qed.

(** *** The tool *)



Lemma code_execution_without_code_witness :
  MiniJson.json_loads (tc_arguments Cases2.no_code) = Return (VDict [])
  ∧ ∃ detail,
      dispatch [Cases2.no_code; Cases.run_code] (Cases.dispatching [])
      = dispatch [Cases.run_code]
          (append (reply Cases2.no_code
                     ("Error executing tool 'code_execution': " ++ detail))
                  (Cases.dispatching [])).
Proof.
  assert (H : MiniJson.json_loads (tc_arguments Cases2.no_code) = Return (VDict []))
    by (vm_compute; reflexivity).
  split; [exact H|].
  exact (ToolsMore.code_execution_without_code MiniPy.interp MiniJson.json_loads
           MiniPy.str (Cases.dispatching []) Cases2.no_code [Cases.run_code] []
           eq_refl H eq_refl eq_refl).
Defined.

(** *** The registry *)

Lemma registry_last_wins_witness :
  registers Cases2.second_f "f" Demo.symbol_lookup
  ∧ _tool_functions
      (Agent.__init__ "" [Cases2.first_f; Cases2.second_f; Cases2.no_callable]
         None (MiniPy.fresh_kernel 30)) !! "f"
    = Some Demo.symbol_lookup.
Proof.
  assert (H : registers Cases2.second_f "f" Demo.symbol_lookup) by done.
  split; [exact H|].
  apply (AgentMore.registry_last_wins "" [Cases2.first_f] [Cases2.no_callable]
           Cases2.second_f None (MiniPy.fresh_kernel 30) "f" Demo.symbol_lookup H).
  constructor; [|constructor]. intros f (_ & Hn & _). discriminate.
Defined.

Lemma registered_tools_are_advertised_witness :
  is_Some (_tool_functions (Agent.__init__ "" Demo.tools None (MiniPy.fresh_kernel 30))
             !! "parse_number")
  ∧ Some "parse_number"
      ∈ ct_name <$> clean_tools (Agent.__init__ "" Demo.tools None
                                   (MiniPy.fresh_kernel 30)).
Proof.
  assert (H : is_Some (_tool_functions
                         (Agent.__init__ "" Demo.tools None (MiniPy.fresh_kernel 30))
                         !! "parse_number"))
    by (exists Demo.parse_number; reflexivity).
  split; [exact H|].
  exact (AgentMore.registered_tools_are_advertised "" Demo.tools None
           (MiniPy.fresh_kernel 30) "parse_number" H).
Defined.

(** An entry without a callable is sent to the completion service but is
    not in the registry: a request for it is answered "not found". *)
Example advertised_but_not_registered :
  Some "g" ∈ ct_name <$> clean_tools (Agent.__init__ "" [Cases2.no_callable] None
                                        (MiniPy.fresh_kernel 30))
  ∧ _tool_functions (Agent.__init__ "" [Cases2.no_callable] None
                       (MiniPy.fresh_kernel 30)) !! "g" = None.
Proof. split; [by left|reflexivity]. Qed.

(** *** The loop *)

Local Abbreviation ask_answer := (query MiniJson.json_loads MiniPy.str Demo.answer).
Local Abbreviation asked_unknown :=
  (turn MiniJson.json_loads MiniPy.str (Demo.ask [Cases.unknown])).

Lemma query_result_shape_witness :
  ask_answer "find the parser" 3 (Demo.agent None)
    = (Some (Return (mk_query_result "done" None)),
       (ask_answer "find the parser" 3 (Demo.agent None)).2)
  ∧ qr_tool_calls (mk_query_result "done" None) = None
  ∧ ∃ response,
      last (messages (ask_answer "find the parser" 3 (Demo.agent None)).2)
        = Some (assistant_message response)
      ∧ resp_tool_calls response = []
      ∧ qr_content (mk_query_result "done" None)
        = default "" (resp_content response).
Proof.
  assert (H : ask_answer "find the parser" 3 (Demo.agent None)
              = (Some (Return (mk_query_result "done" None)),
                 (ask_answer "find the parser" 3 (Demo.agent None)).2))
    by reflexivity.
  split; [exact H|].
  exact (AgentMore.query_result_shape MiniJson.json_loads MiniPy.str Demo.answer
           "find the parser" 3 (Demo.agent None) _ _ H).
Defined.

(** One completed round: the request for an unknown tool is answered
    "not found". *)
Lemma unknown_turn :
  asked_unknown Cases.asked
    (append (reply Cases.unknown "Error: Tool 'web_search' not found")
            (Cases.dispatching [Cases.unknown])).
Proof.
  exists (mk_response None [Cases.unknown]).
  split; [reflexivity|]. split; [done|]. reflexivity.
Qed.

Lemma loop_returns_after_turns_witness :
  conversation_loop MiniJson.json_loads MiniPy.str (Demo.ask [Cases.unknown])
    (1 + 3) Cases.asked
  = (Some (Return (mk_query_result
                     (default "" (resp_content (mk_response (Some "done") [])))
                     None)),
     append (assistant_message (mk_response (Some "done") []))
       (append (reply Cases.unknown "Error: Tool 'web_search' not found")
               (Cases.dispatching [Cases.unknown]))).
Proof.
  exact (AgentMore.loop_returns_after_turns MiniJson.json_loads MiniPy.str
           (Demo.ask [Cases.unknown]) 1 2 Cases.asked _
           (mk_response (Some "done") [])
           (nsteps_once _ _ unknown_turn) eq_refl eq_refl).
Defined.

Lemma completion_failure_ends_query_witness :
  _make_api_call Cases2.unavailable Cases.asked
    = Raise (mk_exn (UserDefined "APIConnectionError" Exception) "Connection error.")
  ∧ conversation_loop MiniJson.json_loads MiniPy.str Cases2.unavailable
      (0 + 3) Cases.asked
    = (Some (Raise (mk_exn (UserDefined "APIConnectionError" Exception)
                      "Connection error.")),
       Cases.asked).
Proof.
  split; [reflexivity|].
  exact (AgentMore.completion_failure_ends_query MiniJson.json_loads MiniPy.str
           Cases2.unavailable 0 2 Cases.asked Cases.asked _
           (nsteps_O _ _) eq_refl).
Defined.

(** *** Arguments *)

Lemma code_execution_gets_the_kernel_witness :
  MiniJson.json_loads (tc_arguments Cases2.smuggled)
    = Return (VDict [("kernel", VInt 1); ("code", VStr "x = 2")])
  ∧ dict_get "kernel" (dict_set "kernel" VKernel
                         [("kernel", VInt 1); ("code", VStr "x = 2")])
    = Some VKernel
  ∧ (_execute_tool_call MiniJson.json_loads
       (Cases.dispatching [Cases2.smuggled]) Cases2.smuggled).1
    = Return (mk_tool_call_response "call_10" "code_execution"
                (VDict [("kernel", VKernel); ("code", VStr "x = 2")])
                (VStr "")).
Proof.
  assert (H : MiniJson.json_loads (tc_arguments Cases2.smuggled)
              = Return (VDict [("kernel", VInt 1); ("code", VStr "x = 2")]))
    by (vm_compute; reflexivity).
  split; [exact H|].
  destruct (AgentMore.code_execution_gets_the_kernel MiniJson.json_loads
              (Cases.dispatching [Cases2.smuggled]) Cases2.smuggled
              [("kernel", VInt 1); ("code", VStr "x = 2")]
              (Tools.code_execution MiniPy.interp) eq_refl H eq_refl)
    as (H1 & _ & H3).
  split; [exact H1|].
  exact (proj2 (H3 _ _ eq_refl) (VStr "") eq_refl).
Defined.

Lemma non_object_payload_is_refused_witness :
  MiniJson.json_loads (tc_arguments Cases.null_number) = Return VNone
  ∧ ∃ detail,
      dispatch [Cases.null_number; Cases.unknown] (Cases.dispatching [])
      = dispatch [Cases.unknown]
          (append (reply Cases.null_number
                     ("Error executing tool '" ++ tc_name Cases.null_number ++ "': "
                        ++ detail))
                  (Cases.dispatching [])).
Proof.
  assert (H : MiniJson.json_loads (tc_arguments Cases.null_number) = Return VNone)
    by (vm_compute; reflexivity).
  split; [exact H|].
  apply (AgentMore.non_object_payload_is_refused MiniJson.json_loads MiniPy.str
           (Cases.dispatching []) Cases.null_number [Cases.unknown] VNone
           Demo.parse_number); [done|exact H|reflexivity|reflexivity].
Defined.

Lemma code_execution_requires_object_witness :
  MiniJson.json_loads (tc_arguments Cases.null_payload) = Return VNone
  ∧ ∃ e, dispatch [Cases.null_payload; Cases.run_code] (Cases.dispatching [])
         = (Raise e, Cases.dispatching [])
         ∧ exn_class e = TypeError.
Proof.
  assert (H : MiniJson.json_loads (tc_arguments Cases.null_payload) = Return VNone)
    by (vm_compute; reflexivity).
  split; [exact H|].
  exact (AgentMore.code_execution_requires_object MiniJson.json_loads MiniPy.str
           (Cases.dispatching []) Cases.null_payload [Cases.run_code] VNone
           eq_refl H eq_refl).
Defined.

(** *** The repository *)

Lemma initialize_then_get_witness :
  Repo.well_formed (Repo.loaded (Repository:=string))
  ∧ Repo.get_repository (Repo.install "repo A" Repo.loaded)
    = (Return "repo A", Repo.install "repo A" Repo.loaded)
  ∧ Repo.well_formed (Repo.install "repo A" Repo.loaded)
  ∧ ∀ r', Repo.get_repository (Repo.install r' (Repo.install "repo A" Repo.loaded))
          = (Return r', Repo.install r' (Repo.install "repo A" Repo.loaded)).
Proof.
  split; [exact I|].
  exact (RepoFacts.initialize_then_get Repo.loaded "repo A" I).
Defined.

Lemma reset_keeps_old_instance_witness :
  Repo.get_repository_of (Repo.__new__ (Repo.loaded (Repository:=string))).1
    (Repo.reset (Repo.install "repo A" Repo.loaded)) = Return "repo A"
  ∧ (Repo.get_repository (Repo.reset (Repo.install "repo A" Repo.loaded))).1
    = Raise Repo.not_initialized
  ∧ (Repo.__new__ (Repo.reset (Repo.install "repo A" Repo.loaded))).1
    ≠ (Repo.__new__ (Repo.loaded (Repository:=string))).1.
Proof.
  exact (RepoFacts.reset_keeps_old_instance Repo.loaded "repo A" I).
Defined.

Lemma code_search_uses_the_repository_witness :
  (Repo.code_search Cases2.search "parser" None
     (Repo.reset (Repo.loaded (Repository:=string)))).1
    = Raise Repo.not_initialized
  ∧ (Repo.code_search Cases2.search "parser" None
       (Repo.install "repo A" Repo.loaded)).1
    = Cases2.search "repo A" "parser" 5.
Proof.
  exact (RepoFacts.code_search_uses_the_repository Cases2.search Repo.loaded
           "repo A" "parser" None I).
Defined.

End Runs2.
